(** * core/vm/vm.go: the byte-code interpreter loop and its gas calculator

    A shallow embedding of [EVM.Run], [calculateGasAndSize],
    [RunPrecompiled] and [eip1283sstoreGas].

    Conventions.
    - A [*big.Int] is a [Z]; [common.Hash] (32 bytes) and [common.Address]
      (20 bytes) are the [Z] their big-endian bytes denote.
    - Go maps are [gmap]s, the set of self-destructed accounts is a [gset].
    - [stack.data] is a Go slice, modelled as a list whose LAST element is
      the top of the stack; indexing it out of range is a run-time panic,
      which the embedding keeps as an explicit outcome.
    - Functions of the package that live in other files (baseCheck,
      calcMemSize, quadMemGas, the handlers, ...) are the fields of the class
      [Package]. *)

From Stdlib Require Import ZArith List Bool Lia.
From stdpp Require Import base option list finite gmap.
Import ListNotations.

Open Scope Z_scope.

(** ** Words, hashes and addresses *)

Definition Big0 : Z := 0.

(** [common.BigToHash]: the low-order 32 bytes of the magnitude. *)
Definition BigToHash (b : Z) : Z := Z.abs b mod 2 ^ 256.

(** [common.BigToAddress]: [common.Address] is a 20-byte array, and
    [BytesToAddress] keeps the low-order 20 bytes of the magnitude
    (common/types.go, [SetBytes] crops from the left). *)
Definition BigToAddress (b : Z) : Z := Z.abs b mod 2 ^ 160.

(** [common.EmptyHash]: is the hash all zero bytes. *)
Definition EmptyHash (h : Z) : bool := h =? 0.

(** [big.Int.Uint64] and [big.Int.Int64]: the low 64 bits, for [Uint64]
    those of the magnitude. *)
Definition Uint64 (x : Z) : Z := Z.abs x mod 2 ^ 64.
Definition Int64 (x : Z) : Z := (x + 2 ^ 63) mod 2 ^ 64 - 2 ^ 63.

(** Go's [int] on a 64-bit platform: two's complement wrap-around. *)
Definition wrap_int (x : Z) : Z := (x + 2 ^ 63) mod 2 ^ 64 - 2 ^ 63.

(** ** eip1283sstoreGas

    [refundCounter] starts at 0 and is updated in place by [Add]/[Sub]; the
    pair returned is [(g, refundCounter)]. *)
Definition eip1283sstoreGas (originalValue currentValue newValue : Z) : Z * Z :=
  let refundCounter := 0 in
  if newValue =? currentValue then
    (200, refundCounter)
  else if originalValue =? currentValue then
    if originalValue =? Big0 then
      (20000, refundCounter)
    else
      let refundCounter :=
        if newValue =? Big0 then refundCounter + 15000 else refundCounter in
      (5000, refundCounter)
  else
    let g := 200 in
    let refundCounter :=
      if negb (originalValue =? Big0) then
        let refundCounter :=
          if currentValue =? Big0 then refundCounter - 15000 else refundCounter in
        if newValue =? Big0 then refundCounter + 15000 else refundCounter
      else refundCounter in
    let refundCounter :=
      if originalValue =? newValue then
        if originalValue =? Big0 then refundCounter + 19800
        else refundCounter + 4800
      else refundCounter in
    (g, refundCounter).

(** The refund rule as the specification words it: cost and refund given
    separately, the refund of a dirty slot as a sum of three independent
    adjustments. *)
Module SstoreSpec.

Definition cost (original current new : Z) : Z :=
  if decide (new = current) then 200
  else if decide (original = current) then
    if decide (original = 0) then 20000 else 5000
  else 200.

Definition clear_penalty (original current : Z) : Z :=
  if decide (original <> 0 /\ current = 0) then -15000 else 0.

Definition clear_bonus (original new : Z) : Z :=
  if decide (original <> 0 /\ new = 0) then 15000 else 0.

Definition restore_bonus (original new : Z) : Z :=
  if decide (original = new) then
    if decide (original = 0) then 19800 else 4800
  else 0.

Definition refund (original current new : Z) : Z :=
  if decide (new = current) then 0
  else if decide (original = current) then
    if decide (original = 0) then 0 else clear_bonus original new
  else
    clear_penalty original current + clear_bonus original new
    + restore_bonus original new.

End SstoreSpec.

(** ** Opcodes and errors *)

(** The opcodes [vm.go] names; [SWAP n], [DUP n] (n = 1..16) and [LOG n]
    (n = 0..4) stand for SWAPn, DUPn and LOGn, [OTHER b] for every other
    byte. *)
Inductive OpCode : Type :=
| STOP | SHA3 | EXP | BALANCE | EXTCODESIZE | EXTCODECOPY
| CALLDATACOPY | CODECOPY | RETURNDATACOPY
| MLOAD | MSTORE | MSTORE8 | SLOAD | SSTORE
| JUMP | JUMPI | PC
| SWAP (n : nat) | DUP (n : nat) | LOG (n : nat)
| CREATE | CREATE2 | CALL | CALLCODE | DELEGATECALL | STATICCALL
| RETURN | REVERT | SUICIDE
| OTHER (b : Z).

#[global] Instance OpCode_eq_dec : EqDecision OpCode.
Proof. solve_decision. Defined.

Inductive Error : Type :=
| OutOfGasError
| CodeStoreOutOfGasError
| errWriteProtection
| ErrExecutionReverted
| ErrInvalidJump (nop : OpCode) (to : Z)
| ErrInvalidOpcode (op : OpCode)
| ErrStackUnderflow (have need : Z)
| ErrOther (code : Z).

(** ** The state the interpreter works on *)

(** The fields of [GasTable] that [calculateGasAndSize] reads;
    [CreateBySuicide] is a pointer that is nil before the homestead gas
    fork. *)
Record GasTable : Type := {
  ExtcodeSize : Z;
  ExtcodeCopy : Z;
  Balance : Z;
  SLoad : Z;
  Calls : Z;
  Suicide : Z;
  ExpByte : Z;
  CreateBySuicide : option Z
}.

(** Modelled from the spec: the state capability of section 6 (the
    [Database] interface, implemented outside core/vm): account existence,
    storage-slot get, refund-counter add, self-destruct registration and
    existence check. *)
Record Database : Type := {
  refund : Z;
  suicides : gset Z;
  accounts : gset Z;
  storage : gmap (Z * Z) Z
}.

Definition Exist (d : Database) (addr : Z) : bool := bool_decide (addr ∈ accounts d).

Definition HasSuicided (d : Database) (addr : Z) : bool :=
  bool_decide (addr ∈ suicides d).

Definition GetState (d : Database) (addr key : Z) : Z :=
  default 0 (storage d !! (addr, key)).

Definition AddRefund (d : Database) (gas : Z) : Database :=
  {| refund := refund d + gas; suicides := suicides d;
     accounts := accounts d; storage := storage d |}.

(** Self-destruct registration ([Database.Suicide]). *)
Definition RegisterSuicide (d : Database) (addr : Z) : Database :=
  {| refund := refund d; suicides := {[addr]} ∪ suicides d;
     accounts := accounts d; storage := storage d |}.

(** [RuleSet]: the fork queries [vm.go] makes, by block number. *)
Record RuleSet : Type := {
  IsECIP1045B : Z -> bool;
  IsEIP1283 : Z -> bool
}.

(** [Environment]: call depth (a Go [int]), read-only flag, return-data
    slot, rule set, block number and the state database. *)
Record Environment : Type := {
  Depth : Z;
  IsReadOnly : bool;
  ReturnData : list Z;
  RuleSet_ : RuleSet;
  BlockNumber : Z;
  Db : Database
}.

Definition SetDepth (e : Environment) (i : Z) : Environment :=
  {| Depth := i; IsReadOnly := IsReadOnly e; ReturnData := ReturnData e;
     RuleSet_ := RuleSet_ e; BlockNumber := BlockNumber e; Db := Db e |}.

Definition SetReturnData (e : Environment) (data : list Z) : Environment :=
  {| Depth := Depth e; IsReadOnly := IsReadOnly e; ReturnData := data;
     RuleSet_ := RuleSet_ e; BlockNumber := BlockNumber e; Db := Db e |}.

Definition SetDb (e : Environment) (d : Database) : Environment :=
  {| Depth := Depth e; IsReadOnly := IsReadOnly e; ReturnData := ReturnData e;
     RuleSet_ := RuleSet_ e; BlockNumber := BlockNumber e; Db := d |}.

(** [Contract]: [Code] is kept as the list of its opcodes. *)
Record Contract : Type := {
  caller : Z;
  Address : Z;
  CodeAddr : option Z;
  Code : list OpCode;
  CodeHash : Z;
  Input : list Z;
  Gas : Z
}.

Definition SetGas (c : Contract) (g : Z) : Contract :=
  {| caller := caller c; Address := Address c; CodeAddr := CodeAddr c;
     Code := Code c; CodeHash := CodeHash c; Input := Input c; Gas := g |}.

Definition SetInput (c : Contract) (input : list Z) : Contract :=
  {| caller := caller c; Address := Address c; CodeAddr := CodeAddr c;
     Code := Code c; CodeHash := CodeHash c; Input := input; Gas := Gas c |}.

(** [Contract.GetOp]: the opcode at [n], STOP past the end of the code. *)
Definition GetOp (c : Contract) (n : Z) : OpCode :=
  if n <? 0 then STOP else default STOP (Code c !! Z.to_nat n).

(** Modelled from the spec: [Contract.UseGas], which contract.go defines.
    Section 3: charging more than available is rejected, and then the gas
    is fully consumed; section 7: OutOfGas always consumes all remaining
    gas, never a part. *)
Definition UseGas (c : Contract) (gas : Z) : Contract * bool :=
  if Gas c <? gas then (SetGas c 0, false)
  else (SetGas c (Gas c - gas), true).

(** Everything one frame of [Run] mutates: the environment and the contract
    (shared with the handlers), and the locals [pc], [stack], [mem] and
    [originalSStoreMap]. [Memory.store] is a byte slice. *)
Record Machine : Type := {
  env : Environment;
  contract : Contract;
  pc : Z;
  stack : list Z;
  mem : list Z;
  originalSStoreMap : gmap Z Z
}.

Definition with_env (m : Machine) (e : Environment) : Machine :=
  {| env := e; contract := contract m; pc := pc m; stack := stack m;
     mem := mem m; originalSStoreMap := originalSStoreMap m |}.

Definition with_contract (m : Machine) (c : Contract) : Machine :=
  {| env := env m; contract := c; pc := pc m; stack := stack m;
     mem := mem m; originalSStoreMap := originalSStoreMap m |}.

Definition with_pc (m : Machine) (p : Z) : Machine :=
  {| env := env m; contract := contract m; pc := p; stack := stack m;
     mem := mem m; originalSStoreMap := originalSStoreMap m |}.

Definition with_stack (m : Machine) (s : list Z) : Machine :=
  {| env := env m; contract := contract m; pc := pc m; stack := s;
     mem := mem m; originalSStoreMap := originalSStoreMap m |}.

Definition with_mem (m : Machine) (b : list Z) : Machine :=
  {| env := env m; contract := contract m; pc := pc m; stack := stack m;
     mem := b; originalSStoreMap := originalSStoreMap m |}.

Definition with_osm (m : Machine) (o : gmap Z Z) : Machine :=
  {| env := env m; contract := contract m; pc := pc m; stack := stack m;
     mem := mem m; originalSStoreMap := o |}.

Definition statedb (m : Machine) : Database := Db (env m).

Definition with_db (m : Machine) (d : Database) : Machine :=
  with_env m (SetDb (env m) d).

(** ** The stack slice *)

Definition slen (data : list Z) : Z := Z.of_nat (length data).

(** [data[i]]: [None] is Go's index-out-of-range panic. *)
Definition data_at (data : list Z) (i : Z) : option Z :=
  if i <? 0 then None else data !! Z.to_nat i.

(** [data[i] = v]. *)
Definition data_set (data : list Z) (i v : Z) : option (list Z) :=
  if (0 <=? i) && (i <? slen data) then Some (<[Z.to_nat i := v]> data)
  else None.

(** [stack.require(n)]. *)
Definition require (data : list Z) (n : Z) : option Error :=
  if slen data <? n then Some (ErrStackUnderflow (slen data) n) else None.

(** [stack.peek()]: the top item. *)
Definition peek (data : list Z) : option Z := data_at data (slen data - 1).

(** [stack.pop()]: the top item and the stack without it. *)
Definition pop (data : list Z) : option (Z * list Z) :=
  match data_at data (slen data - 1) with
  | Some v => Some (v, take (length data - 1) data)
  | None => None
  end.

(** [big.Int.BitLen] and [len(x.Bytes())]: the size of the magnitude. *)
Definition BitLen (x : Z) : Z := if x =? 0 then 0 else Z.log2 (Z.abs x) + 1.
Definition BytesLen (x : Z) : Z := (BitLen x + 7) / 8.

(** ** The rest of package vm *)

(** What a Go function leaves behind: a value and the state, an [error] and
    the state, or a run-time panic. *)
Inductive Result (A : Type) : Type :=
| Ok (a : A) (m : Machine)
| Err (e : Error) (m : Machine)
| Panic.

Arguments Ok {A} a m.
Arguments Err {A} e m.
Arguments Panic {A}.

Notation "'let?' p ':=' e 'in' k" :=
  (match e with Some p => k | None => Panic end)
  (at level 10, p pattern, e at level 100, k at level 200, only parsing).

(** A handler ([instrFn]) works on the pc, the environment, the contract,
    the memory and the stack it is handed; the second component is what the
    operation outputs. *)
Definition instrFn : Type := Machine -> Machine * list Z.

(** An entry of [vmJumpTable]. *)
Record jumpPtr : Type := {
  fn : option instrFn;
  valid : bool
}.

Record PrecompiledAccount : Type := {
  PrecompiledGas : list Z -> Z;
  PrecompiledCall : list Z -> list Z * option Error
}.

(** [EVM]: the jump table and the gas table chosen by [New]; the
    environment it points to is the [env] of the [Machine]. *)
Record EVM : Type := {
  jumpTable : OpCode -> jumpPtr;
  gasTable : GasTable
}.

(** The functions, tables and constants of the package that [vm.go] uses
    and other files define. *)
Class Package : Type := {
  baseCheck : OpCode -> list Z -> Z -> Error + Z;
  calcMemSize : Z -> Z -> Z;
  quadMemGas : list Z -> Z -> Z -> Z;
  toWordSize : Z -> Z;
  GasFastestStep : Z;
  IsStateModifying : OpCode -> bool;
  IsReturning : OpCode -> bool;
  Resize : list Z -> Z -> list Z;
  GetPtr : list Z -> Z -> Z -> list Z;
  jumpdests_has : Z -> list OpCode -> Z -> bool;
  Keccak256Hash : list OpCode -> Z;
  opPc : Z -> instrFn;
  opReturnDataCopy : Machine -> Machine * list Z * option Error;
  opSuicide : instrFn;
  PrecompiledHomestead : Z -> option PrecompiledAccount;
  PrecompiledContractsECIP1045B : Z -> option PrecompiledAccount
}.

(** Modelled from the spec: [callGas], which gas.go defines: the call-gas
    forwarding rule of section 4.7, called as
    [callGas(gasTable, contract.Gas, gas, stack top)]. The available gas is
    what remains of [availableGas] after [base]; a request above 63/64 of
    it is capped to that amount. *)
Definition callGas (gasTable : GasTable) (availableGas base callCost : Z) : Z :=
  let availableGas := availableGas - base in
  let cap := availableGas * 63 / 64 in
  if callCost >? cap then cap else callCost.

(** ** calculateGasAndSize

    Returns [(newMemSize, gas)]; mutates the refund counter of the state
    database, [originalSStoreMap] and, for the call family, the top stack
    slot. [env.Db()] and [statedb] are the same object. *)
Definition calculateGasAndSize `{Package} (gasTable : GasTable) (op : OpCode)
    (m : Machine) : Result (Z * Z) :=
  let gas := 0 in
  let newMemSize := 0 in
  let st := stack m in
  let at_ (k : Z) := data_at st (slen st - k) in
  match baseCheck op st gas with
  | inl err => Err err m
  | inr gas =>
    match op with
    | SUICIDE =>
      let? gas :=
        match CreateBySuicide gasTable with
        | Some createBySuicide =>
          match at_ 1 with
          | Some beneficiary =>
            let gas := Suicide gasTable in
            Some (if negb (Exist (statedb m) (BigToAddress beneficiary))
                  then gas + createBySuicide else gas)
          | None => None
          end
        | None => Some gas
        end in
      let m :=
        if negb (HasSuicided (statedb m) (Address (contract m)))
        then with_db m (AddRefund (statedb m) 24000) else m in
      Ok (newMemSize, gas) m
    | EXTCODESIZE => Ok (newMemSize, ExtcodeSize gasTable) m
    | BALANCE => Ok (newMemSize, Balance gasTable) m
    | SLOAD => Ok (newMemSize, SLoad gasTable) m
    | SWAP i =>
      let n := Z.of_nat i - 1 + 2 in
      match require st n with
      | Some err => Err err m
      | None => Ok (newMemSize, GasFastestStep) m
      end
    | DUP i =>
      let n := Z.of_nat i - 1 + 1 in
      match require st n with
      | Some err => Err err m
      | None => Ok (newMemSize, GasFastestStep) m
      end
    | LOG i =>
      let n := Z.of_nat i in
      match require st (n + 2) with
      | Some err => Err err m
      | None =>
        let? mSize := at_ 2 in
        let? mStart := at_ 1 in
        let gas := gas + 375 in
        let gas := gas + n * 375 in
        let gas := gas + mSize * 8 in
        let newMemSize := calcMemSize mStart mSize in
        Ok (newMemSize, quadMemGas (mem m) newMemSize gas) m
      end
    | EXP =>
      let? exponent := at_ 2 in
      let expByteLen := BytesLen exponent in
      Ok (newMemSize, gas + expByteLen * ExpByte gasTable) m
    | SSTORE =>
      match require st 2 with
      | Some err => Err err m
      | None =>
        let refundCounter := 0 in
        let? newValue := at_ 2 in
        let? storageLoc := at_ 1 in
        let currentValue :=
          GetState (statedb m) (Address (contract m)) (BigToHash storageLoc) in
        let '(g, refundCounter, osm) :=
          if negb (IsEIP1283 (RuleSet_ (env m)) (BlockNumber (env m))) then
            if EmptyHash currentValue && negb (EmptyHash (BigToHash newValue))
            then (20000, refundCounter, originalSStoreMap m)
            else if negb (EmptyHash currentValue) && EmptyHash (BigToHash newValue)
            then (5000, refundCounter + 15000, originalSStoreMap m)
            else (5000, refundCounter, originalSStoreMap m)
          else
            let loc := BigToAddress storageLoc in
            let '(originalValue, osm) :=
              match originalSStoreMap m !! loc with
              | Some v => (v, originalSStoreMap m)
              | None => (currentValue, <[loc := currentValue]> (originalSStoreMap m))
              end in
            let '(g, refundCounter) :=
              eip1283sstoreGas originalValue currentValue newValue in
            (g, refundCounter, osm) in
        let m := with_osm m osm in
        Ok (newMemSize, g) (with_db m (AddRefund (statedb m) refundCounter))
      end
    | MLOAD | MSTORE =>
      let? offset := peek st in
      let newMemSize := calcMemSize offset 32 in
      Ok (newMemSize, quadMemGas (mem m) newMemSize gas) m
    | MSTORE8 =>
      let? offset := peek st in
      let newMemSize := calcMemSize offset 1 in
      Ok (newMemSize, quadMemGas (mem m) newMemSize gas) m
    | RETURN | REVERT =>
      let? offset := peek st in
      let? size := at_ 2 in
      let newMemSize := calcMemSize offset size in
      Ok (newMemSize, quadMemGas (mem m) newMemSize gas) m
    | SHA3 =>
      let? offset := peek st in
      let? size := at_ 2 in
      let newMemSize := calcMemSize offset size in
      let words := toWordSize size in
      let gas := gas + words * 6 in
      Ok (newMemSize, quadMemGas (mem m) newMemSize gas) m
    | CALLDATACOPY | RETURNDATACOPY | CODECOPY =>
      let? offset := peek st in
      let? size := at_ 3 in
      let newMemSize := calcMemSize offset size in
      let words := toWordSize size in
      let gas := gas + words * 3 in
      Ok (newMemSize, quadMemGas (mem m) newMemSize gas) m
    | EXTCODECOPY =>
      let gas := ExtcodeCopy gasTable in
      let? offset := at_ 2 in
      let? size := at_ 4 in
      let newMemSize := calcMemSize offset size in
      let words := toWordSize size in
      let gas := gas + words * 3 in
      Ok (newMemSize, quadMemGas (mem m) newMemSize gas) m
    | CREATE | CREATE2 =>
      let? offset := at_ 2 in
      let? size := at_ 3 in
      let newMemSize := calcMemSize offset size in
      Ok (newMemSize, quadMemGas (mem m) newMemSize gas) m
    | CALL | CALLCODE =>
      let gas := Calls gasTable in
      let? gas :=
        if decide (op = CALL) then
          match at_ 2 with
          | Some to =>
            Some (if negb (Exist (statedb m) (BigToAddress to))
                  then gas + 25000 else gas)
          | None => None
          end
        else Some gas in
      let? value := at_ 3 in
      let gas := if BytesLen value >? 0 then gas + 9000 else gas in
      let? xOffset := at_ 6 in
      let? xSize := at_ 7 in
      let x := calcMemSize xOffset xSize in
      let? yOffset := at_ 4 in
      let? ySize := at_ 5 in
      let y := calcMemSize yOffset ySize in
      let newMemSize := Z.max x y in
      let gas := quadMemGas (mem m) newMemSize gas in
      let? requested := at_ 1 in
      let cg := callGas gasTable (Gas (contract m)) gas requested in
      let? st := data_set st (slen st - 1) cg in
      Ok (newMemSize, gas + cg) (with_stack m st)
    | DELEGATECALL | STATICCALL =>
      let gas := Calls gasTable in
      let? xOffset := at_ 5 in
      let? xSize := at_ 6 in
      let x := calcMemSize xOffset xSize in
      let? yOffset := at_ 3 in
      let? ySize := at_ 4 in
      let y := calcMemSize yOffset ySize in
      let newMemSize := Z.max x y in
      let gas := quadMemGas (mem m) newMemSize gas in
      let? requested := at_ 1 in
      let cg := callGas gasTable (Gas (contract m)) gas requested in
      let? st := data_set st (slen st - 1) cg in
      Ok (newMemSize, gas + cg) (with_stack m st)
    | _ => Ok (newMemSize, gas) m
    end
  end.

(** ** EVM.Run *)

(** How one turn of the loop ends: the loop goes on, [Run] returns
    [(ret, err)], or the goroutine panics. *)
Inductive Outcome : Type :=
| Next (m : Machine)
| Return (m : Machine) (ret : list Z) (err : option Error)
| Fault.

(** The closure [jump]: checks the destination and moves [pc]. *)
Definition jump `{Package} (codehash : Z) (m : Machine) (to : Z) : Error + Machine :=
  if negb (jumpdests_has codehash (Code (contract m)) to) then
    let nop := GetOp (contract m) (Uint64 to) in
    inl (ErrInvalidJump nop to)
  else inr (with_pc m (Uint64 to)).

(** The end of the loop body: the return-data slot is set from [ret], the
    named result of [Run], when the opcode is flagged as returning, and
    [pc] (a uint64) is incremented. *)
Definition advance `{Package} (op : OpCode) (ret : list Z) (m : Machine) : Outcome :=
  let m := if IsReturning op then with_env m (SetReturnData (env m) ret) else m in
  Next (with_pc m (Uint64 (pc m + 1))).

(** The read-only check at the head of the loop body. [&&] and [||] are
    short-circuit, so the stack is indexed only for a CALL that is not
    state-modifying, in read-only mode, under ECIP1045B. *)
Definition checkStateMod `{Package} (op : OpCode) (m : Machine) : option bool :=
  let checkStateMod :=
    IsECIP1045B (RuleSet_ (env m)) (BlockNumber (env m)) && IsReadOnly (env m) in
  if checkStateMod then
    if IsStateModifying op then Some true
    else if decide (op = CALL) then
      match data_at (stack m) (slen (stack m) - 2 - 1) with
      | Some value => Some (BitLen value >? 0)
      | None => None
      end
    else Some false
  else Some false.

(** The dispatch of the loop body, after gas was charged and the memory
    resized. A handler's results are dropped (it is called as a
    statement). *)
Definition dispatch `{Package} (evm : EVM) (codehash : Z) (ret : list Z)
    (op : OpCode) (m : Machine) : Outcome :=
  let opPtr := jumpTable evm op in
  if valid opPtr then
    match fn opPtr with
    | Some f => advance op ret (fst (f m))
    | None =>
      match op with
      | PC => advance op ret (fst (opPc (pc m) m))
      | JUMP =>
        match pop (stack m) with
        | Some (to, st) =>
          match jump codehash (with_stack m st) to with
          | inl err => Return (with_stack m st) [] (Some err)
          | inr m => Next m
          end
        | None => Fault
        end
      | JUMPI =>
        match pop (stack m) with
        | Some (pos, st) =>
          match pop st with
          | Some (cond, st) =>
            let m := with_stack m st in
            if negb (cond =? 0) then
              match jump codehash m pos with
              | inl err => Return m [] (Some err)
              | inr m => Next m
              end
            else advance op ret m
          | None => Fault
          end
        | None => Fault
        end
      | REVERT =>
        match pop (stack m) with
        | Some (offset, st) =>
          match pop st with
          | Some (size, st) =>
            let ret := GetPtr (mem m) (Int64 offset) (Int64 size) in
            Return (with_stack m st) ret (Some ErrExecutionReverted)
          | None => Fault
          end
        | None => Fault
        end
      | RETURN =>
        match pop (stack m) with
        | Some (offset, st) =>
          match pop st with
          | Some (size, st) =>
            let ret := GetPtr (mem m) (Int64 offset) (Int64 size) in
            Return (with_stack m st) ret None
          | None => Fault
          end
        | None => Fault
        end
      | RETURNDATACOPY =>
        match opReturnDataCopy m with
        | (m, _, Some err) => Return m [] (Some err)
        | (m, _, None) => advance op ret m
        end
      | SUICIDE => Return (fst (opSuicide m)) [] None
      | STOP => Return m [] None
      | _ => advance op ret m
      end
    end
  else Return m [] (Some (ErrInvalidOpcode op)).

(** One turn of the [for] loop of [Run]. [ret] is the named result of
    [Run]; no statement of the loop assigns it before a [return]. *)
Definition step `{Package} (evm : EVM) (codehash : Z) (ret : list Z)
    (m : Machine) : Outcome :=
  let op := GetOp (contract m) (pc m) in
  match checkStateMod op m with
  | None => Fault
  | Some true => Return m [] (Some errWriteProtection)
  | Some false =>
    match calculateGasAndSize (gasTable evm) op m with
    | Panic => Fault
    | Err err m => Return m [] (Some err)
    | Ok (newMemSize, cost) m =>
      let '(c, ok) := UseGas (contract m) cost in
      let m := with_contract m c in
      if negb ok then Return m [] (Some OutOfGasError)
      else
        let m := with_mem m (Resize (mem m) (Uint64 newMemSize)) in
        dispatch evm codehash ret op m
    end
  end.

(** The [for] loop; [None] when [fuel] turns did not reach a [return]. *)
Fixpoint loop `{Package} (fuel : nat) (evm : EVM) (codehash : Z) (ret : list Z)
    (m : Machine) : option Outcome :=
  match fuel with
  | O => None
  | S fuel =>
    match step evm codehash ret m with
    | Next m => loop fuel evm codehash ret m
    | o => Some o
    end
  end.

(** How a call of [Run] ends: it returns [(ret, err)], leaving the
    environment and the contract as given, or it panics. *)
Inductive Exit : Type :=
| Returned (e : Environment) (c : Contract) (ret : list Z) (err : option Error)
| Panicked.

(** [RunPrecompiled]. *)
Definition RunPrecompiled (p : PrecompiledAccount) (input : list Z)
    (c : Contract) : Contract * list Z * option Error :=
  let gas := PrecompiledGas p input in
  let '(c, ok) := UseGas c gas in
  if ok then
    let '(ret, err) := PrecompiledCall p input in (c, ret, err)
  else (c, [], Some OutOfGasError).

(** [Run]. The argument of the deferred [SetDepth] is evaluated when the
    [defer] statement is executed, that is right after the increment; the
    deferred call itself runs on every way out. *)
Definition Run `{Package} (fuel : nat) (evm : EVM) (e : Environment)
    (c : Contract) (input : list Z) : option Exit :=
  let e := SetDepth e (wrap_int (Depth e + 1)) in
  let deferred := wrap_int (Depth e - 1) in
  let leave (x : Outcome) : Exit :=
    match x with
    | Return m ret err => Returned (SetDepth (env m) deferred) (contract m) ret err
    | _ => Panicked
    end in
  let e := SetReturnData e [] in
  let start (c' : Contract) : Machine :=
    {| env := e; contract := c'; pc := 0; stack := []; mem := [];
       originalSStoreMap := ∅ |} in
  let precompiled :=
    match CodeAddr c with
    | Some addr =>
      let precompiles :=
        if IsECIP1045B (RuleSet_ e) (BlockNumber e)
        then PrecompiledContractsECIP1045B else PrecompiledHomestead in
      precompiles addr
    | None => None
    end in
  match precompiled with
  | Some p =>
    let '(c, ret, err) := RunPrecompiled p input c in
    Some (leave (Return (start c) ret err))
  | None =>
    if decide (length (Code c) = 0%nat) then
      Some (leave (Return (start c) [] None))
    else
      let codehash :=
        if CodeHash c =? 0 then Keccak256Hash (Code c)
        else CodeHash c in
      let c := SetInput c input in
      leave <$> loop fuel evm codehash [] (start c)
  end.

(** The base cost of a call, as [calculateGasAndSize] has it in [gas] when
    it applies the forwarding rule: the call cost of the gas table, for CALL
    the surcharge for a new account, for CALL and CALLCODE the surcharge for
    a transfer of value, and the memory expansion. *)
Definition callBaseGas `{Package} (gasTable : GasTable) (op : OpCode)
    (m : Machine) (newMemSize : Z) : Z :=
  let st := stack m in
  let newAccount :=
    match op, data_at st (slen st - 2) with
    | CALL, Some to =>
      if Exist (statedb m) (BigToAddress to) then 0 else 25000
    | _, _ => 0
    end in
  let transfer :=
    match op, data_at st (slen st - 3) with
    | (CALL | CALLCODE), Some value => if value =? 0 then 0 else 9000
    | _, _ => 0
    end in
  quadMemGas (mem m) newMemSize (Calls gasTable + newAccount + transfer).

(** What the return-data slot holds, and what the call depth is, once a
    turn of the loop or a call of [Run] is over. *)
Definition returnDataAfter (o : Outcome) : option (list Z) :=
  match o with
  | Next m | Return m _ _ => Some (ReturnData (env m))
  | Fault => None
  end.

Definition exitState (x : option Exit) : option (Z * list Z * option Error) :=
  match x with
  | Some (Returned e _ _ err) => Some (Depth e, ReturnData e, err)
  | _ => None
  end.

(** The cost and the [originalSStoreMap] a cost computation leaves. *)
Definition costAndMap (r : Result (Z * Z)) : option (Z * gmap Z Z) :=
  match r with
  | Ok (_, cost) m => Some (cost, originalSStoreMap m)
  | _ => None
  end.

(** ** The frame of a call

    The machine on which [Run] enters its loop: the environment one level
    deeper and with the return data cleared, the input stored in the
    contract, and fresh locals. *)
Definition frameStart (e : Environment) (c : Contract) (input : list Z) : Machine :=
  {| env := SetReturnData (SetDepth e (wrap_int (Depth e + 1))) [];
     contract := SetInput c input; pc := 0; stack := []; mem := [];
     originalSStoreMap := ∅ |}.

(** The code hash the loop works with. *)
Definition frameCodehash `{Package} (c : Contract) : Z :=
  if CodeHash c =? 0 then Keccak256Hash (Code c) else CodeHash c.

(** The precompile [Run] finds for the contract, if any. *)
Definition precompiledFor `{Package} (e : Environment) (c : Contract)
    : option PrecompiledAccount :=
  match CodeAddr c with
  | Some addr =>
    (if IsECIP1045B (RuleSet_ e) (BlockNumber e)
     then PrecompiledContractsECIP1045B else PrecompiledHomestead) addr
  | None => None
  end.

(** Does [Run] reach its loop: no precompile and some code. *)
Definition entersLoop `{Package} (e : Environment) (c : Contract) : bool :=
  match precompiledFor e c, Code c with
  | None, _ :: _ => true
  | _, _ => false
  end.

(** The handlers leave the call depth as they found it when they return
    (as a handler that makes a call does, the callee's [Run] having restored
    it). *)
Definition handlers_keep_depth `{Package} (evm : EVM) : Prop :=
  (forall op f m, fn (jumpTable evm op) = Some f ->
                  Depth (env (fst (f m))) = Depth (env m))
  /\ (forall data m, Depth (env (fst (opPc data m))) = Depth (env m))
  /\ (forall m, Depth (env (fst (fst (opReturnDataCopy m)))) = Depth (env m))
  /\ (forall m, Depth (env (fst (opSuicide m))) = Depth (env m)).

(** ** SUICIDE steps of one transaction

    The frames of a transaction work on one state database. [suicideFrames]
    runs, in order, frames that each stand at a SUICIDE, handing the database
    from one to the next; for each frame it logs the contract's address and
    what the step added to the refund counter. A frame that does not end
    normally ends the run. *)
Definition suicideFrame `{Package} (evm : EVM) (codehash : Z) (m : Machine)
    (d : Database) : option Database :=
  match step evm codehash [] (with_db m d) with
  | Return m' _ None => Some (statedb m')
  | _ => None
  end.

Fixpoint suicideFrames `{Package} (evm : EVM) (frames : list (Z * Machine))
    (d : Database) : option (list (Z * Z) * Database) :=
  match frames with
  | [] => Some ([], d)
  | (codehash, m) :: frames =>
    match suicideFrame evm codehash m d with
    | Some d1 =>
      match suicideFrames evm frames d1 with
      | Some (log, d2) =>
        Some ((Address (contract m), refund d1 - refund d) :: log, d2)
      | None => None
      end
    | None => None
    end
  end.

(** As [suicideFrames], but without the demand that a frame ends normally:
    [Run] undoes nothing, so a frame that ends with an error hands on the
    state database as it left it. *)
Fixpoint suicideAttempts `{Package} (evm : EVM) (frames : list (Z * Machine))
    (d : Database) : option (list (Z * Z) * Database) :=
  match frames with
  | [] => Some ([], d)
  | (codehash, m) :: frames =>
    match step evm codehash [] (with_db m d) with
    | Next m' | Return m' _ _ =>
      match suicideAttempts evm frames (statedb m') with
      | Some (log, d2) =>
        Some ((Address (contract m), refund (statedb m') - refund d) :: log, d2)
      | None => None
      end
    | Fault => None
    end
  end.

(** The contracts a log shows as granted the refund. *)
Definition granted (log : list (Z * Z)) : list Z :=
  map fst (List.filter (fun p => negb (snd p =? 0)) log).

(** Self-destruct registration (section 6 of the spec): the handler records
    the executing contract as self-destructed, nothing else, and leaves the
    refund counter alone. *)
Definition registers_suicide (h : instrFn) : Prop :=
  forall m : Machine,
    suicides (statedb (fst (h m)))
      = {[Address (contract m)]} ∪ suicides (statedb m)
    /\ refund (statedb (fst (h m))) = refund (statedb m).

(** ** Successive SSTOREs to one slot

    The costs and refunds [eip1283sstoreGas] gives for storing the values
    [news], one after the other, in a slot whose original value is
    [original] and which holds [current]; after each SSTORE the slot holds
    the value stored. *)
Fixpoint sstoreSeq (original current : Z) (news : list Z) : list (Z * Z) :=
  match news with
  | [] => []
  | new :: news =>
    eip1283sstoreGas original current new :: sstoreSeq original new news
  end.

Definition totalGas (l : list (Z * Z)) : Z := foldr Z.add 0 (map fst l).
Definition totalRefund (l : list (Z * Z)) : Z := foldr Z.add 0 (map snd l).

(** What a slot holding [current] has been charged beyond 200 per SSTORE
    and not been refunded: nothing when it holds its original value, the
    price of a new slot (less 200) when the original value was zero, and
    otherwise the price of a change (less 200), less the clearing refund
    when it holds zero. *)
Definition sstoreHeld (original current : Z) : Z :=
  if current =? original then 0
  else if original =? 0 then 19800
  else if current =? 0 then 4800 - 15000
  else 4800.

(** The number of stack items [calculateGasAndSize] indexes without a
    prior [require]: the deepest [stack.data[stack.len()-k]] of the case. *)
Definition stackReads (gasTable : GasTable) (op : OpCode) : Z :=
  match op with
  | SUICIDE => match CreateBySuicide gasTable with Some _ => 1 | None => 0 end
  | MLOAD | MSTORE | MSTORE8 => 1
  | EXP | RETURN | REVERT | SHA3 => 2
  | CALLDATACOPY | RETURNDATACOPY | CODECOPY | CREATE | CREATE2 => 3
  | EXTCODECOPY => 4
  | DELEGATECALL | STATICCALL => 6
  | CALL | CALLCODE => 7
  | _ => 0
  end.

(** The opcodes of the call family. *)
Definition isCall (op : OpCode) : bool :=
  match op with
  | CALL | CALLCODE | DELEGATECALL | STATICCALL => true
  | _ => false
  end.

(** The cost a cost computation returns and what it adds to the refund
    counter of the state database [d] it started from. *)
Definition costAndRefund (d : Database) (r : Result (Z * Z)) : option (Z * Z) :=
  match r with
  | Ok (_, cost) m => Some (cost, refund (statedb m) - refund d)
  | _ => None
  end.

(** ** A small package to run the model on *)
Module Sample.

Definition sample_baseCheck (op : OpCode) (st : list Z) (gas : Z) : Error + Z :=
  let '(stackPop, g) :=
    match op with
    | SSTORE => (2, 0)
    | SUICIDE => (1, 0)
    | CALL | CALLCODE => (7, 40)
    | DELEGATECALL | STATICCALL => (6, 40)
    | RETURN | REVERT => (2, 0)
    | JUMP => (1, 8)
    | JUMPI => (2, 10)
    | PC => (0, 2)
    | OTHER 96 => (0, 3)
    | _ => (0, 0)
    end in
  match require st stackPop with
  | Some err => inl err
  | None => inr (gas + g)
  end.

Definition sample_toWordSize (size : Z) : Z := (size + 31) / 32.

Definition sample_calcMemSize (off l : Z) : Z :=
  if l =? 0 then 0 else off + l.

Definition sample_memGas (size : Z) : Z :=
  let words := sample_toWordSize size in
  words * 3 + words * words / 512.

Definition sample_quadMemGas (mem : list Z) (newMemSize gas : Z) : Z :=
  if newMemSize >? slen mem
  then gas + (sample_memGas newMemSize - sample_memGas (slen mem))
  else gas.

Definition sample_Resize (mem : list Z) (size : Z) : list Z :=
  mem ++ replicate (Z.to_nat (size - slen mem)) 0.

Definition sample_GetPtr (mem : list Z) (offset size : Z) : list Z :=
  take (Z.to_nat size) (drop (Z.to_nat offset) mem).

(** PUSH1 (0x60): pushes the byte that follows it in the code. *)
Definition opPush1 : instrFn := fun m =>
  let v := match GetOp (contract m) (pc m + 1) with OTHER b => b | _ => 0 end in
  (with_pc (with_stack m (stack m ++ [v])) (pc m + 1), []).

Definition SetState (d : Database) (addr key v : Z) : Database :=
  {| refund := refund d; suicides := suicides d; accounts := accounts d;
     storage := <[(addr, key) := v]> (storage d) |}.

Definition opSstore : instrFn := fun m =>
  match pop (stack m) with
  | Some (loc, st) =>
    match pop st with
    | Some (val, st) =>
      (with_db (with_stack m st)
         (SetState (statedb m) (Address (contract m)) (BigToHash loc) val), [])
    | None => (m, [])
    end
  | None => (m, [])
  end.

(** A call that takes [n] operands, pushes 1 and whose callee returned the
    single byte 42, which the handler also stores as return data. *)
Definition opCall (n : nat) : instrFn := fun m =>
  let st := take (length (stack m) - n) (stack m) ++ [1] in
  (with_env (with_stack m st) (SetReturnData (env m) [42]), [42]).

Definition sample_opSuicide : instrFn := fun m =>
  (with_db (with_stack m (take (length (stack m) - 1) (stack m)))
     (RegisterSuicide (statedb m) (Address (contract m))), []).

Definition sample_opPc (data : Z) : instrFn := fun m =>
  (with_stack m (stack m ++ [data]), []).

(** The identity precompile at address 4. *)
Definition identity : PrecompiledAccount :=
  {| PrecompiledGas := fun input => 15 + 3 * sample_toWordSize (slen input);
     PrecompiledCall := fun input => (input, None) |}.

Definition sample_precompiles (addr : Z) : option PrecompiledAccount :=
  if addr =? 4 then Some identity else None.

#[local] Instance pkg : Package := {|
  baseCheck := sample_baseCheck;
  calcMemSize := sample_calcMemSize;
  quadMemGas := sample_quadMemGas;
  toWordSize := sample_toWordSize;
  GasFastestStep := 3;
  IsStateModifying := fun op =>
    match op with
    | SSTORE | LOG _ | CREATE | CREATE2 | SUICIDE => true
    | _ => false
    end;
  IsReturning := fun op =>
    match op with
    | CREATE | CREATE2 | CALL | CALLCODE | DELEGATECALL | STATICCALL => true
    | _ => false
    end;
  Resize := sample_Resize;
  GetPtr := sample_GetPtr;
  jumpdests_has := fun _ code to =>
    bool_decide (0 <= to /\ code !! Z.to_nat to = Some (OTHER 91));
  Keccak256Hash := fun _ => 1;
  opPc := sample_opPc;
  opReturnDataCopy := fun m => (m, [], None);
  opSuicide := sample_opSuicide;
  PrecompiledHomestead := sample_precompiles;
  PrecompiledContractsECIP1045B := sample_precompiles
|}.

Definition table : GasTable :=
  {| ExtcodeSize := 700; ExtcodeCopy := 700; Balance := 400; SLoad := 200;
     Calls := 700; Suicide := 5000; ExpByte := 10;
     CreateBySuicide := Some 25000 |}.

Definition evm : EVM :=
  {| jumpTable := fun op =>
       match op with
       | OTHER 96 => {| fn := Some opPush1; valid := true |}
       | SSTORE => {| fn := Some opSstore; valid := true |}
       | CALL | CALLCODE => {| fn := Some (opCall 7); valid := true |}
       | DELEGATECALL | STATICCALL => {| fn := Some (opCall 6); valid := true |}
       | PC | JUMP | JUMPI | REVERT | RETURN | RETURNDATACOPY | SUICIDE | STOP =>
         {| fn := None; valid := true |}
       | _ => {| fn := None; valid := false |}
       end;
     gasTable := table |}.

Definition rules (ecip1045b eip1283 : bool) : RuleSet :=
  {| IsECIP1045B := fun _ => ecip1045b; IsEIP1283 := fun _ => eip1283 |}.

Definition state (slots : list (Z * Z * Z)) : Database :=
  {| refund := 0; suicides := ∅; accounts := {[ 1000; 2000 ]};
     storage := list_to_map slots |}.

Definition environment (ecip1045b eip1283 readOnly : bool) (d : Database)
    : Environment :=
  {| Depth := 3; IsReadOnly := readOnly; ReturnData := [7; 7];
     RuleSet_ := rules ecip1045b eip1283; BlockNumber := 100; Db := d |}.

Definition code (addr : Z) (ops : list OpCode) (gas : Z) : Contract :=
  {| caller := 2000; Address := addr; CodeAddr := None; Code := ops;
     CodeHash := 0; Input := []; Gas := gas |}.

(** A frame of contract [addr] about to execute [ops] on stack [st]. *)
Definition frame (e : Environment) (addr : Z) (ops : list OpCode) (gas : Z)
    (st : list Z) : Machine :=
  {| env := e; contract := code addr ops gas; pc := 0; stack := st; mem := [];
     originalSStoreMap := ∅ |}.

(** A frame at a STATICCALL that asks for 7000000 gas with 6300700 left. *)
Definition callFrame : Machine :=
  frame (environment true true false (state [])) 1000 [STATICCALL] 6300700
    [0; 0; 0; 0; 2000; 7000000].

(** A frame at a JUMP (base cost 8) with 5 gas left. *)
Definition poorFrame : Machine :=
  frame (environment true true false (state [])) 1000 [JUMP; OTHER 91] 5 [1].

(** A read-only frame about to clear the slot 1, which holds 3. *)
Definition readOnlyFrame (ecip1045b : bool) : Machine :=
  frame (environment ecip1045b false true (state [(1000, 1, 3)])) 1000
    [SSTORE] 50000 [0; 1].

(** PUSH1 [b]. *)
Definition push (b : Z) : list OpCode := [OTHER 96; OTHER b].

(** Code that calls with 5 gas requested and then stops. *)
Definition callingCode : list OpCode :=
  push 0 ++ push 0 ++ push 0 ++ push 0 ++ push 0 ++ push 2000 ++ push 5
  ++ [CALLCODE; STOP].

(** A read-only frame whose code starts with CALL; its stack is empty, as
    it is when [Run] enters the loop. *)
Definition readOnlyCall (readOnly : bool) : Contract * Environment :=
  (code 1000 [CALL] 1000, environment true true readOnly (state [])).

(** Two storage keys that differ in bit 160, holding 5 and 7. *)
Definition key1 : Z := 1.
Definition key2 : Z := 2 ^ 160 + 1.

Definition twoSlots : Database := state [(1000, key1, 5); (1000, key2, 7)].

(** A frame under EIP-1283 about to store [newValue] under [key]. *)
Definition sstoreFrame (osm : gmap Z Z) (newValue key : Z) : Machine :=
  with_osm
    (frame (environment true true false twoSlots) 1000 [SSTORE] 50000
       [newValue; key])
    osm.

(** Three frames at a SUICIDE, of the contracts 1000, 3000 and 1000
    again, and the state their transaction leaves. *)
Definition suicideAt (addr : Z) : Machine :=
  frame (environment true true false (state [])) addr [SUICIDE] 10000 [2000].

Definition suicideSeq : list (Z * Machine) :=
  [(0, suicideAt 1000); (0, suicideAt 3000); (0, suicideAt 1000)].

Definition suicideLog : list (Z * Z) := [(1000, 24000); (3000, 24000); (1000, 0)].

Definition afterSuicides : Database :=
  {| refund := 48000; suicides := {[ 1000; 3000 ]}; accounts := {[ 1000; 2000 ]};
     storage := ∅ |}.

(** A frame at an EXTCODECOPY with two items on the stack. *)
Definition shortFrame : Machine :=
  frame (environment true true false (state [])) 1000 [EXTCODECOPY] 50000 [1; 2].

(** A frame under EIP-1283 about to clear the slot 1, which holds 3: the
    counterpart of [readOnlyFrame false] after the fork. *)
Definition clearFrame : Machine :=
  frame (environment true true false (state [(1000, 1, 3)])) 1000
    [SSTORE] 50000 [0; 1].

(** A contract at the address of the identity precompile that also has
    code. *)
Definition precompiledWithCode : Contract :=
  {| caller := 2000; Address := 4; CodeAddr := Some 4; Code := [OTHER 12];
     CodeHash := 0; Input := []; Gas := 100 |}.

(** A frame at an opcode the sample jump table does not have, whose base
    cost the sample base check puts at nothing. *)
Definition invalidFrame : Machine :=
  frame (environment true true false (state [])) 1000 [OTHER 12] 50 [].

(** A frame of contract [addr] at a SUICIDE with 100 gas, less than the
    5000 it costs, and the transaction in which the contract 1000 tries
    with that and then again with enough gas. *)
Definition poorSuicide (addr : Z) : Machine :=
  frame (environment true true false (state [])) addr [SUICIDE] 100 [2000].

Definition suicideRetry : list (Z * Machine) :=
  [(0, poorSuicide 1000); (0, suicideAt 1000)].

End Sample.

(** ** Theorems *)

Ltac zb :=
  repeat match goal with
  | |- context [?a =? ?b] => destruct (Z.eqb_spec a b)
  | |- context [decide ?P] => destruct (decide P)
  end.

(** C1: for every triple (original, current, new) the post-EIP-1283 SSTORE
    computation returns the cost and the refund of the specification's
    three-way rule; (0,0,5) costs 20000 with no refund and (5,3,5) costs 200
    with the 4800 restore refund. *)
Theorem eip1283sstoreGas_spec :
  (forall original current new : Z,
      eip1283sstoreGas original current new
      = (SstoreSpec.cost original current new,
         SstoreSpec.refund original current new))
  /\ eip1283sstoreGas 0 0 5 = (20000, 0)
  /\ eip1283sstoreGas 5 3 5 = (200, 4800).
Proof.
  split; [| split; reflexivity].
  intros o c n.
  unfold eip1283sstoreGas, SstoreSpec.cost, SstoreSpec.refund,
    SstoreSpec.clear_penalty, SstoreSpec.clear_bonus,
    SstoreSpec.restore_bonus, Big0.
  zb; simpl; try (f_equal; lia); try lia; try tauto.
Qed.

(** *** Stack slice lemmas *)

Lemma slen_app (l1 l2 : list Z) : slen (l1 ++ l2) = slen l1 + slen l2.
Proof. unfold slen. rewrite length_app. lia. Qed.

Lemma slen_nonneg (l : list Z) : 0 <= slen l.
Proof. unfold slen. lia. Qed.

Lemma data_at_app (rest l : list Z) (i : Z) :
  0 <= i -> data_at (rest ++ l) (slen rest + i) = data_at l i.
Proof.
  intros Hi. unfold data_at, slen.
  destruct (Z.ltb_spec (Z.of_nat (length rest) + i) 0); [lia |].
  destruct (Z.ltb_spec i 0); [lia |].
  rewrite lookup_app_r by lia. f_equal. lia.
Qed.

Lemma data_at_from_end (rest l : list Z) (k : Z) :
  0 < k <= slen l ->
  data_at (rest ++ l) (slen (rest ++ l) - k) = data_at l (slen l - k).
Proof.
  intros Hk. rewrite slen_app.
  replace (slen rest + slen l - k) with (slen rest + (slen l - k)) by lia.
  apply data_at_app. lia.
Qed.

Lemma data_set_top (rest : list Z) (x v : Z) :
  data_set (rest ++ [x]) (slen (rest ++ [x]) - 1) v = Some (rest ++ [v]).
Proof.
  unfold data_set. rewrite slen_app. pose proof (slen_nonneg rest).
  change (slen [x]) with 1.
  destruct (Z.leb_spec 0 (slen rest + 1 - 1)); [| lia].
  destruct (Z.ltb_spec (slen rest + 1 - 1) (slen rest + 1)); [| lia].
  simpl. f_equal. unfold slen.
  replace (Z.to_nat (Z.of_nat (length rest) + 1 - 1)) with (length rest + 0)%nat by lia.
  rewrite insert_app_r. reflexivity.
Qed.

Lemma require_ok (data : list Z) (n : Z) : n <= slen data -> require data n = None.
Proof. intros Hn. unfold require. destruct (Z.ltb_spec (slen data) n); [lia | easy]. Qed.

Lemma BitLen_pos (x : Z) : (BitLen x >? 0) = negb (x =? 0).
Proof.
  unfold BitLen. destruct (Z.eqb_spec x 0); [reflexivity |].
  pose proof (Z.log2_nonneg (Z.abs x)). simpl.
  destruct (Z.gtb_spec (Z.log2 (Z.abs x) + 1) 0); [reflexivity | lia].
Qed.

Lemma BytesLen_pos (x : Z) : (BytesLen x >? 0) = negb (x =? 0).
Proof.
  unfold BytesLen, BitLen. destruct (Z.eqb_spec x 0); [reflexivity |].
  pose proof (Z.log2_nonneg (Z.abs x)). simpl.
  assert (1 <= (Z.log2 (Z.abs x) + 1 + 7) / 8)
    by (apply Z.div_le_lower_bound; lia).
  destruct (Z.gtb_spec ((Z.log2 (Z.abs x) + 1 + 7) / 8) 0); [reflexivity | lia].
Qed.

Lemma with_osm_same (m : Machine) : with_osm m (originalSStoreMap m) = m.
Proof. destruct m; reflexivity. Qed.

Lemma BigToHash_word (x : Z) : 0 <= x < 2 ^ 256 -> BigToHash x = x.
Proof.
  intros Hx. unfold BigToHash. rewrite Z.abs_eq by lia.
  apply Z.mod_small. exact Hx.
Qed.

(** C7: before the EIP-1283 fork an SSTORE costs 20000 from zero to
    nonzero and 5000 on every other transition, whatever the base check
    put in [gas]; 15000 is added to the refund counter on nonzero to zero,
    and nothing otherwise. *)
Theorem sstore_gas_before_eip1283 `{Package} (gasTable : GasTable) (m : Machine)
    (rest : list Z) (newValue storageLoc g0 : Z) :
  IsEIP1283 (RuleSet_ (env m)) (BlockNumber (env m)) = false ->
  stack m = rest ++ [newValue; storageLoc] ->
  0 <= newValue < 2 ^ 256 ->
  baseCheck SSTORE (stack m) 0 = inr g0 ->
  let currentValue :=
    GetState (statedb m) (Address (contract m)) (BigToHash storageLoc) in
  calculateGasAndSize gasTable SSTORE m
  = Ok (0, if decide (currentValue = 0 /\ newValue <> 0) then 20000 else 5000)
       (with_db m
          (AddRefund (statedb m)
             (if decide (currentValue <> 0 /\ newValue = 0) then 15000 else 0))).
Proof.
  intros Hfork Hst Hword Hbase currentValue.
  unfold calculateGasAndSize. rewrite Hbase, Hfork, Hst.
  rewrite require_ok by (rewrite slen_app; pose proof (slen_nonneg rest);
                         change (slen [newValue; storageLoc]) with 2; lia).
  rewrite !data_at_from_end by (change (slen [newValue; storageLoc]) with 2; lia).
  change (data_at [newValue; storageLoc] (slen [newValue; storageLoc] - 2))
    with (Some newValue).
  change (data_at [newValue; storageLoc] (slen [newValue; storageLoc] - 1))
    with (Some storageLoc).
  cbv iota beta.
  rewrite (BigToHash_word newValue) by exact Hword.
  fold currentValue. unfold EmptyHash. simpl negb.
  destruct (Z.eqb_spec currentValue 0) as [Hc | Hc];
    destruct (Z.eqb_spec newValue 0) as [Hn | Hn]; simpl;
    rewrite with_osm_same;
    repeat (destruct (decide _) as [[? ?] | ?]; try tauto; try lia);
    reflexivity.
Qed.

(** The pre-fork rule on the sample package: 3 to 0 in the slot 1. *)
Lemma sstore_gas_before_eip1283_witness :
  calculateGasAndSize (H := Sample.pkg) Sample.table SSTORE
    (Sample.frame
       (Sample.environment false false false (Sample.state [(1000, 1, 3)]))
       1000 [SSTORE] 50000 [0; 1])
  = Ok (0, 5000)
       (with_db
          (Sample.frame
             (Sample.environment false false false (Sample.state [(1000, 1, 3)]))
             1000 [SSTORE] 50000 [0; 1])
          (AddRefund (Sample.state [(1000, 1, 3)]) 15000)).
Proof.
  apply (sstore_gas_before_eip1283 (H := Sample.pkg) Sample.table
           (Sample.frame
              (Sample.environment false false false (Sample.state [(1000, 1, 3)]))
              1000 [SSTORE] 50000 [0; 1])
           [] 0 1 0).
  - reflexivity.
  - reflexivity.
  - lia.
  - reflexivity.
Defined.

(** *** The call family *)

Lemma data_at_top (rest : list Z) (x : Z) :
  data_at (rest ++ [x]) (slen (rest ++ [x]) - 1) = Some x.
Proof. rewrite data_at_from_end by (change (slen [x]) with 1; lia). reflexivity. Qed.

(** A slice that can be indexed at [len - 1] ends with that item. *)
Lemma data_at_last_inv (data : list Z) (x : Z) :
  data_at data (slen data - 1) = Some x -> exists rest, data = rest ++ [x].
Proof.
  induction data as [| y rest _] using rev_ind.
  - discriminate.
  - rewrite data_at_top. intros [= ->]. eauto.
Qed.

(** C2: for CALL, CALLCODE, DELEGATECALL and STATICCALL, with availableGas
    what the contract has left after the base cost of the call and
    requestedGas the top of the stack, the forwarded amount is
    floor(availableGas * 63 / 64) when the request exceeds it and the
    request itself otherwise; it replaces the top of the stack and is added
    to the cost. From 6300000 available, a request of 7000000 forwards
    floor(6300000 * 63 / 64) and a request of 1000 forwards 1000. *)
Theorem call_gas_forwarding `{Package} (gasTable : GasTable) (op : OpCode)
    (m m' : Machine) (newMemSize cost : Z) :
  op = CALL \/ op = CALLCODE \/ op = DELEGATECALL \/ op = STATICCALL ->
  calculateGasAndSize gasTable op m = Ok (newMemSize, cost) m' ->
  (exists (rest : list Z) (requestedGas : Z),
      stack m = rest ++ [requestedGas]
      /\ let base := callBaseGas gasTable op m newMemSize in
         let availableGas := Gas (contract m) - base in
         let forwarded :=
           if decide (requestedGas > availableGas * 63 / 64)
           then availableGas * 63 / 64 else requestedGas in
         m' = with_stack m (rest ++ [forwarded])
         /\ cost = base + forwarded)
  /\ callGas gasTable 6300000 0 7000000 = 6300000 * 63 / 64
  /\ callGas gasTable 6300000 0 1000 = 1000.
Proof.
  intros Hop Hcalc. split; [| split; reflexivity].
  unfold calculateGasAndSize in Hcalc.
  destruct (baseCheck op (stack m) 0) as [err | g0]; [destruct Hop as [-> | [-> | [-> | ->]]]; discriminate |].
  assert (Hfwd : forall base requestedGas,
             callGas gasTable (Gas (contract m)) base requestedGas
             = if decide (requestedGas > (Gas (contract m) - base) * 63 / 64)
               then (Gas (contract m) - base) * 63 / 64 else requestedGas).
  { intros base r. unfold callGas.
    destruct (Z.gtb_spec r ((Gas (contract m) - base) * 63 / 64));
      destruct (decide (r > (Gas (contract m) - base) * 63 / 64));
      try reflexivity; lia. }
  unfold callBaseGas.
  destruct Hop as [-> | [-> | [-> | ->]]]; cbv beta iota zeta in Hcalc |- *.
  - destruct (data_at (stack m) (slen (stack m) - 2)) as [to |]; [| discriminate].
    simpl in Hcalc.
    destruct (data_at (stack m) (slen (stack m) - 3)) as [value |]; [| discriminate].
    destruct (data_at (stack m) (slen (stack m) - 6)) as [xo |]; [| discriminate].
    destruct (data_at (stack m) (slen (stack m) - 7)) as [xs |]; [| discriminate].
    destruct (data_at (stack m) (slen (stack m) - 4)) as [yo |]; [| discriminate].
    destruct (data_at (stack m) (slen (stack m) - 5)) as [ys |]; [| discriminate].
    destruct (data_at (stack m) (slen (stack m) - 1)) as [req |] eqn:Htop;
      [| discriminate].
    destruct (data_at_last_inv _ _ Htop) as [rest Hst].
    rewrite Hst, data_set_top in Hcalc. injection Hcalc as <- <- <-.
    exists rest, req. split; [exact Hst |].
    rewrite BytesLen_pos, Hfwd.
    destruct (Exist (statedb m) (BigToAddress to)), (value =? 0); simpl;
      rewrite ?Z.add_0_r; split; reflexivity.
  - simpl in Hcalc.
    destruct (data_at (stack m) (slen (stack m) - 3)) as [value |]; [| discriminate].
    destruct (data_at (stack m) (slen (stack m) - 6)) as [xo |]; [| discriminate].
    destruct (data_at (stack m) (slen (stack m) - 7)) as [xs |]; [| discriminate].
    destruct (data_at (stack m) (slen (stack m) - 4)) as [yo |]; [| discriminate].
    destruct (data_at (stack m) (slen (stack m) - 5)) as [ys |]; [| discriminate].
    destruct (data_at (stack m) (slen (stack m) - 1)) as [req |] eqn:Htop;
      [| discriminate].
    destruct (data_at_last_inv _ _ Htop) as [rest Hst].
    rewrite Hst, data_set_top in Hcalc. injection Hcalc as <- <- <-.
    exists rest, req. split; [exact Hst |].
    rewrite BytesLen_pos, Hfwd.
    destruct (value =? 0); simpl; rewrite ?Z.add_0_r; split; reflexivity.
  - destruct (data_at (stack m) (slen (stack m) - 5)) as [xo |]; [| discriminate].
    destruct (data_at (stack m) (slen (stack m) - 6)) as [xs |]; [| discriminate].
    destruct (data_at (stack m) (slen (stack m) - 3)) as [yo |]; [| discriminate].
    destruct (data_at (stack m) (slen (stack m) - 4)) as [ys |]; [| discriminate].
    destruct (data_at (stack m) (slen (stack m) - 1)) as [req |] eqn:Htop;
      [| discriminate].
    destruct (data_at_last_inv _ _ Htop) as [rest Hst].
    rewrite Hst, data_set_top in Hcalc. injection Hcalc as <- <- <-.
    exists rest, req. split; [exact Hst |].
    rewrite Hfwd, !Z.add_0_r. split; reflexivity.
  - destruct (data_at (stack m) (slen (stack m) - 5)) as [xo |]; [| discriminate].
    destruct (data_at (stack m) (slen (stack m) - 6)) as [xs |]; [| discriminate].
    destruct (data_at (stack m) (slen (stack m) - 3)) as [yo |]; [| discriminate].
    destruct (data_at (stack m) (slen (stack m) - 4)) as [ys |]; [| discriminate].
    destruct (data_at (stack m) (slen (stack m) - 1)) as [req |] eqn:Htop;
      [| discriminate].
    destruct (data_at_last_inv _ _ Htop) as [rest Hst].
    rewrite Hst, data_set_top in Hcalc. injection Hcalc as <- <- <-.
    exists rest, req. split; [exact Hst |].
    rewrite Hfwd, !Z.add_0_r. split; reflexivity.
Qed.

(** The sample STATICCALL: the base cost is 700, 6300000 remain, and the
    request of 7000000 is capped to 6201562. *)
Lemma call_gas_forwarding_witness :
  (exists (rest : list Z) (requestedGas : Z),
      stack Sample.callFrame = rest ++ [requestedGas]
      /\ let base :=
           callBaseGas (H := Sample.pkg) Sample.table STATICCALL Sample.callFrame 0 in
         let availableGas := Gas (contract Sample.callFrame) - base in
         let forwarded :=
           if decide (requestedGas > availableGas * 63 / 64)
           then availableGas * 63 / 64 else requestedGas in
         with_stack Sample.callFrame [0; 0; 0; 0; 2000; 6201562]
         = with_stack Sample.callFrame (rest ++ [forwarded])
         /\ 700 + 6201562 = base + forwarded)
  /\ callGas Sample.table 6300000 0 7000000 = 6300000 * 63 / 64
  /\ callGas Sample.table 6300000 0 1000 = 1000.
Proof.
  apply (call_gas_forwarding (H := Sample.pkg) Sample.table STATICCALL
           Sample.callFrame
           (with_stack Sample.callFrame [0; 0; 0; 0; 2000; 6201562])
           0 (700 + 6201562)).
  - right; right; right; reflexivity.
  - vm_compute. reflexivity.
Defined.

(** *** The loop body *)

Lemma UseGas_nonneg (c : Contract) (gas : Z) : 0 <= Gas (fst (UseGas c gas)).
Proof.
  unfold UseGas. destruct (Z.ltb_spec (Gas c) gas); simpl; lia.
Qed.

(** C4: when the cost computed for a step exceeds the gas the contract has
    left, the step returns OutOfGas with the gas set to zero and the machine
    otherwise as the cost computation left it, no handler having run;
    otherwise the whole cost is deducted and the step goes on to the
    dispatch. The gas left after the charge is never negative. *)
Theorem charge_gas_atomic `{Package} (evm : EVM) (codehash : Z) (ret : list Z)
    (m m1 : Machine) (newMemSize cost : Z) :
  checkStateMod (GetOp (contract m) (pc m)) m = Some false ->
  calculateGasAndSize (gasTable evm) (GetOp (contract m) (pc m)) m
  = Ok (newMemSize, cost) m1 ->
  step evm codehash ret m
  = (if decide (cost > Gas (contract m1)) then
       Return (with_contract m1 (SetGas (contract m1) 0)) [] (Some OutOfGasError)
     else
       dispatch evm codehash ret (GetOp (contract m) (pc m))
         (with_mem
            (with_contract m1 (SetGas (contract m1) (Gas (contract m1) - cost)))
            (Resize (mem m1) (Uint64 newMemSize))))
  /\ 0 <= Gas (fst (UseGas (contract m1) cost)).
Proof.
  intros Hcheck Hcalc. split; [| apply UseGas_nonneg].
  unfold step. rewrite Hcheck, Hcalc. unfold UseGas.
  destruct (Z.ltb_spec (Gas (contract m1)) cost);
    destruct (decide (cost > Gas (contract m1))); try lia; reflexivity.
Qed.

(** The sample JUMP with 5 gas left against a cost of 8. *)
Lemma charge_gas_atomic_witness :
  step (H := Sample.pkg) Sample.evm 0 [] Sample.poorFrame
  = (if decide (8 > Gas (contract Sample.poorFrame)) then
       Return
         (with_contract Sample.poorFrame (SetGas (contract Sample.poorFrame) 0))
         [] (Some OutOfGasError)
     else
       dispatch (H := Sample.pkg) Sample.evm 0 []
         (GetOp (contract Sample.poorFrame) (pc Sample.poorFrame))
         (with_mem
            (with_contract Sample.poorFrame
               (SetGas (contract Sample.poorFrame)
                  (Gas (contract Sample.poorFrame) - 8)))
            (@Resize Sample.pkg (mem Sample.poorFrame) (Uint64 0))))
  /\ 0 <= Gas (fst (UseGas (contract Sample.poorFrame) 8)).
Proof.
  apply (charge_gas_atomic (H := Sample.pkg) Sample.evm 0 [] Sample.poorFrame
           Sample.poorFrame 0 8).
  - reflexivity.
  - reflexivity.
Defined.

(** C5, as stated, fails: with the read-only flag set but the ECIP1045B
    fork not active, a state-modifying opcode is not stopped. *)
Lemma write_protection_counterexample :
  ~ (forall (P : Package) (evm : EVM) (codehash : Z) (ret : list Z) (m : Machine),
        IsReadOnly (env m) = true ->
        IsStateModifying (GetOp (contract m) (pc m)) = true
        \/ (GetOp (contract m) (pc m) = CALL
            /\ exists value,
                 data_at (stack m) (slen (stack m) - 3) = Some value
                 /\ value <> 0) ->
        step evm codehash ret m = Return m [] (Some errWriteProtection)).
Proof.
  intros Hclaim.
  specialize (Hclaim Sample.pkg Sample.evm 0 [] (Sample.readOnlyFrame false)
                eq_refl (or_introl eq_refl)).
  vm_compute in Hclaim. discriminate Hclaim.
Qed.

(** What the sample read-only SSTORE does when the fork is not active: the
    step goes through, 5000 gas is charged, the refund is registered and
    the slot is cleared. *)
Lemma read_only_sstore_without_fork :
  exists m',
    step (H := Sample.pkg) Sample.evm 0 [] (Sample.readOnlyFrame false) = Next m'
    /\ Gas (contract m') = 45000
    /\ refund (statedb m') = 15000
    /\ GetState (statedb m') 1000 1 = 0.
Proof.
  eexists. split; [vm_compute; reflexivity |]. repeat split.
Qed.

(** C5, amended: in a step executed while the read-only flag is set and the
    ECIP1045B fork is active, a state-modifying opcode, or a CALL whose
    value operand (third from the top) is not zero, makes [Run] return the
    write-protection error with the machine untouched: no cost computed, no
    gas charged, no refund registered, no state changed. *)
Theorem write_protection_before_cost `{Package} (evm : EVM) (codehash : Z)
    (ret : list Z) (m : Machine) :
  IsECIP1045B (RuleSet_ (env m)) (BlockNumber (env m)) = true ->
  IsReadOnly (env m) = true ->
  IsStateModifying (GetOp (contract m) (pc m)) = true
  \/ (GetOp (contract m) (pc m) = CALL
      /\ exists value,
           data_at (stack m) (slen (stack m) - 3) = Some value /\ value <> 0) ->
  step evm codehash ret m = Return m [] (Some errWriteProtection).
Proof.
  intros Hfork Hro Hop. unfold step, checkStateMod. rewrite Hfork, Hro. simpl.
  destruct (IsStateModifying (GetOp (contract m) (pc m))) eqn:Hmod; [reflexivity |].
  destruct Hop as [Hop | (Hcall & value & Hat & Hvalue)]; [discriminate |].
  destruct (decide (GetOp (contract m) (pc m) = CALL)) as [_ | Hne]; [| contradiction].
  replace (slen (stack m) - 2 - 1) with (slen (stack m) - 3) by lia.
  rewrite Hat, BitLen_pos.
  destruct (Z.eqb_spec value 0); [contradiction | reflexivity].
Qed.

(** The sample read-only SSTORE under ECIP1045B. *)
Lemma write_protection_before_cost_witness :
  step (H := Sample.pkg) Sample.evm 0 [] (Sample.readOnlyFrame true)
  = Return (Sample.readOnlyFrame true) [] (Some errWriteProtection).
Proof.
  apply (write_protection_before_cost (H := Sample.pkg) Sample.evm 0 []
           (Sample.readOnlyFrame true)).
  - reflexivity.
  - reflexivity.
  - left. reflexivity.
Defined.

(** *** Call depth *)

Lemma wrap_int_restore (d : Z) :
  - 2 ^ 63 <= d < 2 ^ 63 -> wrap_int (wrap_int (d + 1) - 1) = d.
Proof.
  intros Hd. unfold wrap_int.
  destruct (decide (d = 2 ^ 63 - 1)) as [-> | Hne]; [reflexivity |].
  rewrite (Z.mod_small (d + 1 + 2 ^ 63)) by lia.
  replace (d + 1 + 2 ^ 63 - 2 ^ 63 - 1 + 2 ^ 63) with (d + 2 ^ 63) by lia.
  rewrite Z.mod_small by lia. lia.
Qed.

Lemma calculateGasAndSize_keeps_depth `{Package} (gasTable : GasTable)
    (op : OpCode) (m : Machine) :
  match calculateGasAndSize gasTable op m with
  | Ok _ m' | Err _ m' => Depth (env m') = Depth (env m)
  | Panic => True
  end.
Proof.
  unfold calculateGasAndSize.
  destruct (baseCheck op (stack m) 0) as [err | g0]; [reflexivity |].
  destruct op; repeat case_match; simplify_eq; try exact I; reflexivity.
Qed.

(** The loop body itself never touches the call depth: a turn changes it
    only if a handler does. *)
Lemma step_keeps_depth `{Package} (evm : EVM) (codehash : Z) (ret : list Z)
    (m : Machine) :
  handlers_keep_depth evm ->
  match step evm codehash ret m with
  | Next m' | Return m' _ _ => Depth (env m') = Depth (env m)
  | Fault => True
  end.
Proof.
  intros (Hfn & Hpc & Hcopy & Hsuicide). unfold step.
  set (op := GetOp (contract m) (pc m)). clearbody op.
  destruct (checkStateMod op m) as [[|] |]; try exact I; [reflexivity |].
  pose proof (calculateGasAndSize_keeps_depth (gasTable evm) op m) as Hcalc.
  destruct (calculateGasAndSize (gasTable evm) op m) as [[sz cost] m1 | e m1 |];
    try exact I; [| exact Hcalc].
  destruct (UseGas (contract m1) cost) as [c [|]]; simpl; [| exact Hcalc].
  rewrite <- Hcalc. clear Hcalc.
  set (m2 := with_mem (with_contract m1 c) (Resize (mem m1) (Uint64 sz))).
  change (Depth (env m1)) with (Depth (env m2)). clearbody m2.
  unfold dispatch, advance, jump.
  destruct (valid (jumpTable evm op)); [| reflexivity].
  destruct (fn (jumpTable evm op)) as [f |] eqn:Hf.
  { specialize (Hfn op f m2 Hf). destruct (IsReturning op); simpl; exact Hfn. }
  destruct op; repeat case_match; simplify_eq; simpl;
    try exact I; try reflexivity;
    try (rewrite Hpc; reflexivity); try (apply Hpc); try (apply Hsuicide);
    match goal with
    | Hc : opReturnDataCopy ?x = _ |- _ =>
      specialize (Hcopy x); rewrite Hc in Hcopy; exact Hcopy
    end.
Qed.

Lemma loop_keeps_depth `{Package} (fuel : nat) (evm : EVM) (codehash : Z)
    (ret out : list Z) (m m' : Machine) (err : option Error) :
  handlers_keep_depth evm ->
  loop fuel evm codehash ret m = Some (Return m' out err) ->
  Depth (env m') = Depth (env m).
Proof.
  intros Hkeep. revert m. induction fuel as [| fuel IH]; intros m Hloop;
    [discriminate |].
  simpl in Hloop. pose proof (step_keeps_depth evm codehash ret m Hkeep) as Hstep.
  destruct (step evm codehash ret m) as [m1 | m1 out1 err1 |].
  - rewrite <- Hstep. apply (IH m1 Hloop).
  - injection Hloop as -> _ _. exact Hstep.
  - discriminate.
Qed.

(** C6: [Run] increments the call depth once on entry, so that its loop
    starts one level deeper (and stays there as long as the handlers hand
    the depth back as they found it), and sets it back once on the way out:
    whenever [Run] returns, be it from a precompile, on empty code, or from
    the loop by STOP, RETURN, REVERT or an error, the call depth of the
    environment is the one it had before the call. *)
Theorem Run_restores_depth `{Package} (fuel : nat) (evm : EVM) (e e' : Environment)
    (c c' : Contract) (input ret : list Z) (err : option Error) :
  - 2 ^ 63 <= Depth e < 2 ^ 63 ->
  Run fuel evm e c input = Some (Returned e' c' ret err) ->
  Depth e' = Depth e
  /\ Depth (env (frameStart e c input)) = wrap_int (Depth e + 1)
  /\ wrap_int (Depth (env (frameStart e c input)) - 1) = Depth e
  /\ (entersLoop e c = true ->
      exists m',
        loop fuel evm (frameCodehash c) [] (frameStart e c input)
        = Some (Return m' ret err)
        /\ e' = SetDepth (env m') (Depth e)
        /\ c' = contract m'
        /\ (handlers_keep_depth evm ->
            Depth (env m') = wrap_int (Depth e + 1))).
Proof.
  intros Hd Hrun.
  pose proof (wrap_int_restore (Depth e) Hd) as Hback.
  split; [| split; [reflexivity | split; [exact Hback |]]].
  - unfold Run in Hrun. cbv zeta in Hrun.
    destruct (match CodeAddr c with Some _ => _ | None => _ end) as [p |].
    + destruct (RunPrecompiled p input c) as [[c1 ret1] err1].
      injection Hrun as <- _ _ _. exact Hback.
    + destruct (decide (length (Code c) = 0%nat)) as [_ | _].
      * injection Hrun as <- _ _ _. exact Hback.
      * destruct (loop _ _ _ _ _) as [[m | m ret1 err1 |] |]; try discriminate Hrun.
        simpl in Hrun. injection Hrun as <- _ _ _. exact Hback.
  - intros Henter. unfold entersLoop, precompiledFor in Henter.
    unfold Run in Hrun. cbv zeta in Hrun.
    cbn [RuleSet_ BlockNumber SetReturnData SetDepth] in Hrun.
    destruct (match CodeAddr c with Some _ => _ | None => _ end) as [p |];
      [discriminate Henter |].
    assert (Hcode : Code c <> []) by (destruct (Code c); congruence).
    destruct (decide (length (Code c) = 0%nat)) as [Hlen | _];
      [apply length_zero_iff_nil in Hlen; contradiction |].
    change (loop fuel evm _ [] _)
      with (loop fuel evm (frameCodehash c) [] (frameStart e c input)) in Hrun.
    destruct (loop fuel evm (frameCodehash c) [] (frameStart e c input))
      as [[m | m ret1 err1 |] |] eqn:Hloop; try discriminate Hrun.
    simpl in Hrun. injection Hrun as <- <- <- <-.
    exists m. split; [reflexivity |]. split; [f_equal; exact Hback |].
    split; [reflexivity |].
    intros Hkeep. apply (loop_keeps_depth _ _ _ _ _ _ _ _ Hkeep Hloop).
Qed.

(** The sample call-and-stop code, entered at depth 3, returns at depth 3. *)
Lemma Run_restores_depth_witness :
  Run (H := Sample.pkg) 20 Sample.evm
    (Sample.environment true true false (Sample.state []))
    (Sample.code 1000 Sample.callingCode 1000) [1; 2]
  = Some
      (Returned
         (SetDepth
            (SetReturnData
               (Sample.environment true true false (Sample.state [])) [])
            3)
         (SetGas (SetInput (Sample.code 1000 Sample.callingCode 1000) [1; 2]) 274)
         [] None)
  /\ Depth
       (SetDepth
          (SetReturnData
             (Sample.environment true true false (Sample.state [])) [])
          3)
     = Depth (Sample.environment true true false (Sample.state []))
  /\ Depth
       (env
          (frameStart (Sample.environment true true false (Sample.state []))
             (Sample.code 1000 Sample.callingCode 1000) [1; 2]))
     = wrap_int (Depth (Sample.environment true true false (Sample.state [])) + 1).
Proof.
  assert (Hrun :
    Run (H := Sample.pkg) 20 Sample.evm
      (Sample.environment true true false (Sample.state []))
      (Sample.code 1000 Sample.callingCode 1000) [1; 2]
    = Some
        (Returned
           (SetDepth
              (SetReturnData
                 (Sample.environment true true false (Sample.state [])) [])
              3)
           (SetGas (SetInput (Sample.code 1000 Sample.callingCode 1000) [1; 2]) 274)
           [] None)) by (vm_compute; reflexivity).
  split; [exact Hrun |].
  assert (Hd : - 2 ^ 63
               <= Depth (Sample.environment true true false (Sample.state []))
               < 2 ^ 63) by (simpl; lia).
  destruct (Run_restores_depth (H := Sample.pkg) 20 Sample.evm _ _ _ _ _ _ _
              Hd Hrun) as (Hout & Hin & _).
  split; [exact Hout | exact Hin].
Defined.

(** Every way out of [Run] on the sample package, entered at depth 3 with
    stale return data: STOP, empty code, the identity precompile, a
    precompile out of gas, REVERT, an invalid opcode, a bad jump and a stack
    underflow all leave depth 3 and, no call having been made, empty return
    data. *)
Lemma Run_terminal_outcomes_sample :
  let e := Sample.environment true true false (Sample.state []) in
  let run (c : Contract) := exitState (Run (H := Sample.pkg) 20 Sample.evm e c [9]) in
  run (Sample.code 1000 [STOP] 100) = Some (3, [], None)
  /\ run (Sample.code 1000 [] 100) = Some (3, [], None)
  /\ run {| caller := 2000; Address := 4; CodeAddr := Some 4; Code := [];
            CodeHash := 0; Input := []; Gas := 100 |} = Some (3, [], None)
  /\ run {| caller := 2000; Address := 4; CodeAddr := Some 4; Code := [];
            CodeHash := 0; Input := []; Gas := 10 |}
     = Some (3, [], Some OutOfGasError)
  /\ run (Sample.code 1000 (Sample.push 0 ++ Sample.push 0 ++ [REVERT]) 100)
     = Some (3, [], Some ErrExecutionReverted)
  /\ run (Sample.code 1000 [OTHER 12] 100)
     = Some (3, [], Some (ErrInvalidOpcode (OTHER 12)))
  /\ run (Sample.code 1000 (Sample.push 1 ++ [JUMP]) 100)
     = Some (3, [], Some (ErrInvalidJump (OTHER 1) 1))
  /\ run (Sample.code 1000 [SSTORE] 100)
     = Some (3, [], Some (ErrStackUnderflow 0 2)).
Proof. vm_compute. repeat split. Qed.

(** *** Return data *)

(** At the end of a turn the slot is left alone for an opcode that is not
    flagged as returning, and set to [ret] for one that is. *)
Lemma advance_ReturnData `{Package} (op : OpCode) (ret : list Z) (m : Machine) :
  returnDataAfter (advance op ret m)
  = Some (if IsReturning op then ret else ReturnData (env m)).
Proof. unfold advance. destruct (IsReturning op); reflexivity. Qed.

(** In [Run], where [ret] is still nil, a returning opcode run by a handler
    of the jump table leaves the slot empty whatever the handler did. *)
Lemma dispatch_returning_clears `{Package} (evm : EVM) (codehash : Z) (op : OpCode)
    (f : instrFn) (m : Machine) :
  valid (jumpTable evm op) = true ->
  fn (jumpTable evm op) = Some f ->
  IsReturning op = true ->
  returnDataAfter (dispatch evm codehash [] op m) = Some [].
Proof.
  intros Hvalid Hfn Hret. unfold dispatch. rewrite Hvalid, Hfn.
  rewrite advance_ReturnData, Hret. reflexivity.
Qed.

(** [Run] clears the slot on entry: on empty code nothing else happens. *)
Lemma Run_clears_return_data `{Package} (fuel : nat) (evm : EVM) (e : Environment)
    (c : Contract) (input : list Z) :
  CodeAddr c = None -> Code c = [] ->
  exitState (Run fuel evm e c input)
  = Some (wrap_int (wrap_int (Depth e + 1) - 1), [], None).
Proof.
  intros Haddr Hcode. unfold Run. rewrite Haddr, Hcode. reflexivity.
Qed.

(** C9, at the failing input: the sample STATICCALL is flagged as returning
    and its handler outputs the byte 42 (and even stores it as return data),
    yet after the step, and when [Run] is over, the return-data slot is
    empty: the loop sets it from [ret], which is nil. *)
Theorem return_data_lost_after_call :
  @IsReturning Sample.pkg STATICCALL = true
  /\ (forall m, snd (Sample.opCall 6 m) = [42]
               /\ ReturnData (env (fst (Sample.opCall 6 m))) = [42])
  /\ returnDataAfter (step (H := Sample.pkg) Sample.evm 0 [] Sample.callFrame)
     = Some []
  /\ exitState
       (Run (H := Sample.pkg) 20 Sample.evm
          (Sample.environment true true false (Sample.state []))
          (Sample.code 1000 Sample.callingCode 1000) [])
     = Some (3, [], None).
Proof.
  split; [reflexivity |]. split; [intros m; split; reflexivity |].
  split; vm_compute; reflexivity.
Qed.

(** *** The read-only check *)

(** The check indexes the stack at [len - 3] before any validation of the
    stack: with fewer than three items that is out of range. *)
Lemma checkStateMod_call_out_of_range `{Package} (m : Machine) :
  IsECIP1045B (RuleSet_ (env m)) (BlockNumber (env m)) = true ->
  IsReadOnly (env m) = true ->
  IsStateModifying CALL = false ->
  slen (stack m) < 3 ->
  checkStateMod CALL m = None.
Proof.
  intros Hfork Hro Hmod Hlen. unfold checkStateMod.
  rewrite Hfork, Hro, Hmod. simpl.
  destruct (decide (CALL = CALL)) as [_ | Hne]; [| contradiction].
  unfold data_at.
  destruct (Z.ltb_spec (slen (stack m) - 2 - 1) 0); [reflexivity | lia].
Qed.

(** C10, at the failing input: a read-only frame under ECIP1045B whose code
    starts with CALL has an empty stack at the check, the index is -3 and
    the step panics, so does [Run]; the same code in a frame that is not
    read-only reaches the stack validation, which reports the underflow. *)
Theorem read_only_call_on_empty_stack_panics :
  checkStateMod (H := Sample.pkg) CALL
    (Sample.frame (snd (Sample.readOnlyCall true)) 1000 [CALL] 1000 [])
  = None
  /\ step (H := Sample.pkg) Sample.evm 0 []
       (Sample.frame (snd (Sample.readOnlyCall true)) 1000 [CALL] 1000 [])
     = Fault
  /\ Run (H := Sample.pkg) 10 Sample.evm (snd (Sample.readOnlyCall true))
       (fst (Sample.readOnlyCall true)) []
     = Some Panicked
  /\ exitState
       (Run (H := Sample.pkg) 10 Sample.evm (snd (Sample.readOnlyCall false))
          (fst (Sample.readOnlyCall false)) [])
     = Some (3, [], Some (ErrStackUnderflow 0 7)).
Proof. repeat split; vm_compute; reflexivity. Qed.

(** *** originalSStoreMap *)

(** A cost computation never changes an entry the map already has. *)
Lemma originalSStoreMap_permanent `{Package} (gasTable : GasTable) (op : OpCode)
    (m m' : Machine) (r : Z * Z) (loc v : Z) :
  calculateGasAndSize gasTable op m = Ok r m' ->
  originalSStoreMap m !! loc = Some v ->
  originalSStoreMap m' !! loc = Some v.
Proof.
  intros Hcalc Hloc. unfold calculateGasAndSize in Hcalc.
  destruct (baseCheck op (stack m) 0) as [err | g0]; [discriminate |].
  destruct op; repeat case_match; simplify_eq; simpl; try assumption.
  rewrite lookup_insert_ne; [assumption | congruence].
Qed.

(** The first SSTORE of a frame under a key records, under the address the
    key converts to, the value the state holds for the key. *)
Lemma originalSStoreMap_first_sstore `{Package} (gasTable : GasTable) (m m' : Machine)
    (r : Z * Z) (rest : list Z) (newValue storageLoc : Z) :
  IsEIP1283 (RuleSet_ (env m)) (BlockNumber (env m)) = true ->
  stack m = rest ++ [newValue; storageLoc] ->
  originalSStoreMap m !! BigToAddress storageLoc = None ->
  calculateGasAndSize gasTable SSTORE m = Ok r m' ->
  originalSStoreMap m' !! BigToAddress storageLoc
  = Some (GetState (statedb m) (Address (contract m)) (BigToHash storageLoc)).
Proof.
  intros Hfork Hst Hnone Hcalc. unfold calculateGasAndSize in Hcalc.
  destruct (baseCheck SSTORE (stack m) 0) as [err | g0]; [discriminate |].
  rewrite Hfork, Hst in Hcalc.
  rewrite require_ok in Hcalc
    by (rewrite slen_app; pose proof (slen_nonneg rest);
        change (slen [newValue; storageLoc]) with 2; lia).
  rewrite !data_at_from_end in Hcalc
    by (change (slen [newValue; storageLoc]) with 2; lia).
  change (data_at [newValue; storageLoc] (slen [newValue; storageLoc] - 2))
    with (Some newValue) in Hcalc.
  change (data_at [newValue; storageLoc] (slen [newValue; storageLoc] - 1))
    with (Some storageLoc) in Hcalc.
  cbv iota beta in Hcalc. simpl negb in Hcalc. cbv iota in Hcalc.
  rewrite Hnone in Hcalc.
  destruct (eip1283sstoreGas _ _ _) as [g refundCounter].
  injection Hcalc as _ <-. simpl. apply lookup_insert_eq.
Qed.

(** There are more 256-bit keys than 160-bit addresses: whatever the
    conversion of a storage key to a 20-byte address, two distinct keys get
    the same address. *)
Lemma bounded_conversion_collides (N : Z) (f : Z -> Z) :
  0 < N -> (forall k, 0 <= f k < N) ->
  exists k1 k2, 0 <= k1 < k2 /\ k2 <= N /\ f k1 = f k2.
Proof.
  intros HN Hf.
  destruct (nat_pigeonhole (fun i => Z.to_nat (f (Z.of_nat i)))
              (S (Z.to_nat N)) (Z.to_nat N)) as (i1 & i2 & Hi & Heq).
  - lia.
  - intros i _. specialize (Hf (Z.of_nat i)). lia.
  - exists (Z.of_nat i1), (Z.of_nat i2). split; [lia |]. split; [lia |].
    pose proof (Hf (Z.of_nat i1)). pose proof (Hf (Z.of_nat i2)). lia.
Qed.

Lemma address_keys_collide (toAddress : Z -> Z) :
  (forall k, 0 <= toAddress k < 2 ^ 160) ->
  exists k1 k2, 0 <= k1 < k2 /\ k2 < 2 ^ 256 /\ toAddress k1 = toAddress k2.
Proof.
  intros Hf.
  destruct (bounded_conversion_collides (2 ^ 160) toAddress ltac:(lia) Hf)
    as (k1 & k2 & Hk & Hle & Heq).
  exists k1, k2. split; [exact Hk |]. split; [lia | exact Heq].
Qed.

(** C3, at the failing input: the keys 1 and 2^160 + 1 are distinct storage
    slots, holding 5 and 7, but convert to the same address. The first
    SSTORE of the frame, under key 1, records 5. The first SSTORE under key
    2^160 + 1 then finds that entry and takes 5 for the original value of a
    slot whose value is 7: clearing it costs 200, as for a dirty slot, where
    its own original value gives 5000. *)
Theorem originalSStoreMap_keys_collide :
  BigToHash Sample.key1 <> BigToHash Sample.key2
  /\ BigToAddress Sample.key1 = BigToAddress Sample.key2
  /\ GetState Sample.twoSlots 1000 (BigToHash Sample.key1) = 5
  /\ GetState Sample.twoSlots 1000 (BigToHash Sample.key2) = 7
  /\ costAndMap
       (calculateGasAndSize (H := Sample.pkg) Sample.table SSTORE
          (Sample.sstoreFrame ∅ 9 Sample.key1))
     = Some (5000, {[ 1 := 5 ]})
  /\ costAndMap
       (calculateGasAndSize (H := Sample.pkg) Sample.table SSTORE
          (Sample.sstoreFrame {[ 1 := 5 ]} 0 Sample.key2))
     = Some (fst (eip1283sstoreGas 5 7 0), {[ 1 := 5 ]})
  /\ fst (eip1283sstoreGas 5 7 0) = 200
  /\ fst (eip1283sstoreGas 7 7 0) = 5000.
Proof.
  split; [vm_compute; discriminate |].
  repeat split; vm_compute; reflexivity.
Qed.

(** *** SUICIDE *)

(** One executed SUICIDE: the contract is registered, and the refund
    counter grows by 24000 exactly when it was not registered before. *)
Lemma suicideFrame_effect `{Package} (evm : EVM) (codehash : Z) (m : Machine)
    (d d1 : Database) :
  GetOp (contract m) (pc m) = SUICIDE ->
  registers_suicide opSuicide ->
  suicideFrame evm codehash m d = Some d1 ->
  suicides d1 = {[Address (contract m)]} ∪ suicides d
  /\ refund d1
     = refund d + (if HasSuicided d (Address (contract m)) then 0 else 24000).
Proof.
  intros Hop Hreg Hrun. unfold suicideFrame, step in Hrun.
  simpl contract in Hrun. simpl pc in Hrun. rewrite Hop in Hrun.
  destruct (checkStateMod SUICIDE (with_db m d)) as [[|] |]; try discriminate Hrun.
  unfold calculateGasAndSize in Hrun.
  destruct (baseCheck SUICIDE (stack (with_db m d)) 0) as [err | g0];
    [discriminate Hrun |].
  cbv zeta in Hrun.
  match type of Hrun with
  | context [match ?g with Some _ => _ | None => Panic end] =>
    destruct g as [gas |]; [| discriminate Hrun]
  end.
  change (statedb (with_db m d)) with d in Hrun.
  change (contract (with_db m d)) with (contract m) in Hrun.
  set (m1 := if negb (HasSuicided d (Address (contract m)))
             then with_db (with_db m d) (AddRefund d 24000)
             else with_db m d) in Hrun.
  assert (Hdb : statedb m1
                = if HasSuicided d (Address (contract m)) then d
                  else AddRefund d 24000)
    by (subst m1; destruct (HasSuicided d (Address (contract m))); reflexivity).
  assert (Haddr : Address (contract m1) = Address (contract m))
    by (subst m1; destruct (HasSuicided d (Address (contract m))); reflexivity).
  clearbody m1. unfold UseGas in Hrun.
  destruct (Gas (contract m1) <? gas); simpl in Hrun; [discriminate Hrun |].
  unfold dispatch in Hrun.
  destruct (valid (jumpTable evm SUICIDE)); [| discriminate Hrun].
  destruct (fn (jumpTable evm SUICIDE)) as [f |].
  { unfold advance in Hrun. discriminate Hrun. }
  injection Hrun as <-.
  match goal with
  | |- context [opSuicide ?m3] => destruct (Hreg m3) as [Hs Hr]
  end.
  rewrite Hs, Hr.
  change (statedb (with_mem (with_contract m1 ?c) ?b)) with (statedb m1).
  change (Address (contract (with_mem (with_contract m1
            (SetGas (contract m1) (Gas (contract m1) - gas)))
            (Resize (mem m1) (Uint64 0)))))
    with (Address (contract m1)).
  rewrite Haddr, Hdb.
  destruct (HasSuicided d (Address (contract m))); simpl; [split; [reflexivity | lia] |].
  split; reflexivity.
Qed.

Lemma granted_cons (a r : Z) (log : list (Z * Z)) :
  granted ((a, r) :: log) = if r =? 0 then granted log else a :: granted log.
Proof. unfold granted. simpl. destruct (r =? 0); reflexivity. Qed.

Lemma granted_elem (a : Z) (log : list (Z * Z)) :
  a ∈ granted log ->
  exists l1 r l2, log = l1 ++ (a, r) :: l2 /\ r <> 0.
Proof.
  induction log as [| [a0 r0] log IH]; intros Hin.
  - inversion Hin.
  - rewrite granted_cons in Hin. destruct (Z.eqb_spec r0 0) as [-> | Hr0].
    + destruct (IH Hin) as (l1 & r & l2 & -> & Hr).
      exists ((a0, 0) :: l1), r, l2. split; [reflexivity | exact Hr].
    + apply elem_of_cons in Hin as [-> | Hin].
      * exists [], r0, log. split; [reflexivity | exact Hr0].
      * destruct (IH Hin) as (l1 & r & l2 & -> & Hr).
        exists ((a0, r0) :: l1), r, l2. split; [reflexivity | exact Hr].
Qed.

(** What [Run] leaves when the sample contract 1000 executes SUICIDE with
    too little gas and then again with enough: the first step ends out of
    gas with the refund added and the contract not registered, the second
    adds the refund again. *)
Lemma suicide_out_of_gas_then_again :
  exists d',
    suicideAttempts (H := Sample.pkg) Sample.evm Sample.suicideRetry
      (Sample.state [])
    = Some ([(1000, 24000); (1000, 24000)], d')
    /\ refund d' = 48000.
Proof. eexists. split; [vm_compute; reflexivity | reflexivity]. Qed.




(** * Further properties *)

(** ** The EIP-1283 rule over a sequence of writes *)

Lemma last_cons_default (x d : Z) (l : list Z) : List.last (x :: l) d = List.last l x.
Proof.
  revert x d. induction l as [| y l IH]; intros x d; [reflexivity |].
  change (List.last (x :: y :: l) d) with (List.last (y :: l) d).
  rewrite (IH y d), (IH y x). reflexivity.
Qed.

Lemma eip1283sstoreGas_net (original current new : Z) :
  fst (eip1283sstoreGas original current new)
  - snd (eip1283sstoreGas original current new)
  = 200 + sstoreHeld original new - sstoreHeld original current.
Proof.
  unfold eip1283sstoreGas, sstoreHeld, Big0. zb; simpl; lia.
Qed.

Lemma sstoreSeq_net (original : Z) (news : list Z) (current : Z) :
  totalGas (sstoreSeq original current news)
  - totalRefund (sstoreSeq original current news)
  = 200 * Z.of_nat (length news)
    + sstoreHeld original (List.last news current) - sstoreHeld original current.
Proof.
  revert current. induction news as [| new news IH]; intros current.
  - unfold totalGas, totalRefund. simpl. lia.
  - rewrite last_cons_default. specialize (IH new).
    pose proof (eip1283sstoreGas_net original current new) as Hstep.
    unfold totalGas, totalRefund in *. simpl sstoreSeq. simpl map. simpl foldr.
    rewrite length_cons. lia.
Qed.

(** Net metering: over any sequence of SSTOREs to a slot that starts at its
    original value, cost minus refund is 200 per SSTORE plus an amount that
    depends only on the original and the final value, and that is zero when
    the slot ends on its original value. *)
Theorem sstore_net_metering (original : Z) (news : list Z) :
  totalGas (sstoreSeq original original news)
  - totalRefund (sstoreSeq original original news)
  = 200 * Z.of_nat (length news)
    + (if decide (List.last news original = original) then 0
       else sstoreHeld original (List.last news original)).
Proof.
  pose proof (sstoreSeq_net original news original) as Hnet.
  assert (Hzero : sstoreHeld original original = 0)
    by (unfold sstoreHeld; rewrite Z.eqb_refl; reflexivity).
  destruct (decide (List.last news original = original)) as [Hlast | Hlast].
  - rewrite Hlast in Hnet. lia.
  - lia.
Qed.

(** The refund balance a slot must carry: at least the clearing refund
    while a slot of nonzero original value holds zero, and never less than
    nothing. *)
Lemma sstoreSeq_refund_floor (original : Z) (news : list Z) (current acc : Z) :
  (if negb (original =? 0) && (current =? 0) then 15000 else 0) <= acc ->
  (if negb (original =? 0) && (List.last news current =? 0) then 15000 else 0)
  <= acc + totalRefund (sstoreSeq original current news).
Proof.
  revert current acc. induction news as [| new news IH]; intros current acc Hacc.
  - simpl. unfold totalRefund. simpl. lia.
  - rewrite last_cons_default.
    specialize (IH new (acc + snd (eip1283sstoreGas original current new))).
    unfold totalRefund in *. simpl sstoreSeq. simpl map. simpl foldr.
    rewrite Z.add_assoc. apply IH. clear IH.
    revert Hacc. unfold eip1283sstoreGas, Big0.
    destruct (Z.eqb_spec original 0), (Z.eqb_spec current 0),
      (Z.eqb_spec new 0), (Z.eqb_spec new current),
      (Z.eqb_spec original current), (Z.eqb_spec original new);
      simpl; lia.
Qed.

(** Whatever is stored in a slot, and in whatever order, the refunds of the
    EIP-1283 rule never sum to less than zero, and they sum to at least
    15000 whenever a slot of nonzero original value ends up cleared. *)
Theorem sstore_refund_never_negative (original : Z) (news : list Z) :
  (if decide (original <> 0 /\ List.last news original = 0) then 15000 else 0)
  <= totalRefund (sstoreSeq original original news).
Proof.
  pose proof (sstoreSeq_refund_floor original news original 0) as Hfloor.
  assert (Hstart : (if negb (original =? 0) && (original =? 0) then 15000 else 0)
                   <= 0)
    by (destruct (Z.eqb_spec original 0); simpl; lia).
  specialize (Hfloor Hstart).
  destruct (decide (original <> 0 /\ List.last news original = 0))
    as [[Hne Hlast] | Hnot].
  - rewrite Hlast in Hfloor. destruct (Z.eqb_spec original 0); [contradiction |].
    simpl in Hfloor. lia.
  - destruct (negb (original =? 0) && (List.last news original =? 0)); lia.
Qed.

(** ** What the cost computation leaves alone *)

Lemma AddRefund_zero (m : Machine) : with_db m (AddRefund (statedb m) 0) = m.
Proof.
  destruct m as [[dp ro rd rs bn [rf su ac sto]] c p st me o].
  unfold with_db, with_env, SetDb, AddRefund, statedb. simpl.
  rewrite Z.add_0_r. reflexivity.
Qed.

Lemma data_set_length (data data' : list Z) (i v : Z) :
  data_set data i v = Some data' -> length data' = length data.
Proof.
  unfold data_set. destruct ((0 <=? i) && (i <? slen data)); [| discriminate].
  intros [= <-]. apply length_insert.
Qed.

(** When the cost computation returns an error, nothing was mutated: no
    refund registered, no original value recorded, the stack as it was. *)
Theorem calculateGasAndSize_error_no_mutation `{Package} (gasTable : GasTable)
    (op : OpCode) (m m' : Machine) (e : Error) :
  calculateGasAndSize gasTable op m = Err e m' -> m' = m.
Proof.
  intros Hcalc. unfold calculateGasAndSize in Hcalc.
  destruct (baseCheck op (stack m) 0) as [err | g0]; [congruence |].
  destruct op; repeat case_match; simplify_eq; reflexivity.
Qed.

(** The sample SSTORE on an empty stack: a stack underflow, the machine
    untouched. *)
Lemma calculateGasAndSize_error_no_mutation_witness :
  calculateGasAndSize (H := Sample.pkg) Sample.table SSTORE
    (Sample.frame (Sample.environment true true false Sample.twoSlots) 1000
       [SSTORE] 50000 [])
  = Err (ErrStackUnderflow 0 2)
      (Sample.frame (Sample.environment true true false Sample.twoSlots) 1000
         [SSTORE] 50000 [])
  /\ Sample.frame (Sample.environment true true false Sample.twoSlots) 1000
       [SSTORE] 50000 []
     = Sample.frame (Sample.environment true true false Sample.twoSlots) 1000
         [SSTORE] 50000 [].
Proof.
  assert (Hcalc :
    calculateGasAndSize (H := Sample.pkg) Sample.table SSTORE
      (Sample.frame (Sample.environment true true false Sample.twoSlots) 1000
         [SSTORE] 50000 [])
    = Err (ErrStackUnderflow 0 2)
        (Sample.frame (Sample.environment true true false Sample.twoSlots) 1000
           [SSTORE] 50000 [])) by reflexivity.
  split; [exact Hcalc |].
  apply (calculateGasAndSize_error_no_mutation (H := Sample.pkg) Sample.table
           SSTORE _ _ _ Hcalc).
Defined.

(** A cost computation that succeeds changes nothing but the refund
    counter, the map of original values and the stack: it does not reduce
    the gas, does not resize the memory, does not move the pc and does not
    write accounts, storage or the self-destruct set. *)
Theorem calculateGasAndSize_frame `{Package} (gasTable : GasTable) (op : OpCode)
    (m m' : Machine) (r : Z * Z) :
  calculateGasAndSize gasTable op m = Ok r m' ->
  m' = with_stack
         (with_osm
            (with_db m
               (AddRefund (statedb m) (refund (statedb m') - refund (statedb m))))
            (originalSStoreMap m'))
         (stack m').
Proof.
  intros Hcalc. unfold calculateGasAndSize in Hcalc.
  destruct (baseCheck op (stack m) 0) as [err | g0]; [congruence |].
  destruct op; repeat case_match; try discriminate Hcalc;
    injection Hcalc as _ <-;
    destruct m as [[dp ro rd rs bn [rf su ac sto]] c0 pc0 st0 me0 o0];
    unfold with_stack, with_osm, with_db, with_env, SetDb, AddRefund, statedb;
    simpl; repeat f_equal; lia.
Qed.

(** The sample SUICIDE: 24000 more in the refund counter, all else as it
    was. *)
Lemma calculateGasAndSize_frame_witness :
  with_db (Sample.suicideAt 1000) (AddRefund (Sample.state []) 24000)
  = with_stack
      (with_osm
         (with_db (Sample.suicideAt 1000)
            (AddRefund (statedb (Sample.suicideAt 1000))
               (refund
                  (statedb
                     (with_db (Sample.suicideAt 1000)
                        (AddRefund (Sample.state []) 24000)))
                - refund (statedb (Sample.suicideAt 1000)))))
         (originalSStoreMap
            (with_db (Sample.suicideAt 1000) (AddRefund (Sample.state []) 24000))))
      (stack (with_db (Sample.suicideAt 1000) (AddRefund (Sample.state []) 24000))).
Proof.
  apply (calculateGasAndSize_frame (H := Sample.pkg) Sample.table SUICIDE
           (Sample.suicideAt 1000)
           (with_db (Sample.suicideAt 1000) (AddRefund (Sample.state []) 24000))
           (0, 5000)).
  reflexivity.
Defined.

(** The stack keeps its length, and only the call family writes to it. *)
Theorem calculateGasAndSize_stack `{Package} (gasTable : GasTable) (op : OpCode)
    (m m' : Machine) (r : Z * Z) :
  calculateGasAndSize gasTable op m = Ok r m' ->
  length (stack m') = length (stack m)
  /\ (if isCall op then True else stack m' = stack m).
Proof.
  intros Hcalc. unfold calculateGasAndSize in Hcalc.
  destruct (baseCheck op (stack m) 0) as [err | g0]; [congruence |].
  destruct op; repeat case_match; simplify_eq; simpl;
    try (split; [reflexivity | reflexivity]);
    (split; [eapply data_set_length; eassumption | exact I]).
Qed.

(** The sample STATICCALL: six items before and after. *)
Lemma calculateGasAndSize_stack_witness :
  length (stack (with_stack Sample.callFrame [0; 0; 0; 0; 2000; 6201562]))
  = length (stack Sample.callFrame)
  /\ (if isCall STATICCALL then True
      else stack (with_stack Sample.callFrame [0; 0; 0; 0; 2000; 6201562])
           = stack Sample.callFrame).
Proof.
  apply (calculateGasAndSize_stack (H := Sample.pkg) Sample.table STATICCALL
           Sample.callFrame
           (with_stack Sample.callFrame [0; 0; 0; 0; 2000; 6201562])
           (0, 700 + 6201562)).
  vm_compute. reflexivity.
Defined.

(** Only SSTORE and SUICIDE touch the state database. *)
Theorem calculateGasAndSize_statedb `{Package} (gasTable : GasTable) (op : OpCode)
    (m m' : Machine) (r : Z * Z) :
  op <> SSTORE -> op <> SUICIDE ->
  calculateGasAndSize gasTable op m = Ok r m' ->
  statedb m' = statedb m.
Proof.
  intros Hs Hd Hcalc. unfold calculateGasAndSize in Hcalc.
  destruct (baseCheck op (stack m) 0) as [err | g0]; [congruence |].
  destruct op; try contradiction; repeat case_match; simplify_eq; reflexivity.
Qed.

Lemma calculateGasAndSize_statedb_witness :
  statedb (with_stack Sample.callFrame [0; 0; 0; 0; 2000; 6201562])
  = statedb Sample.callFrame.
Proof.
  apply (calculateGasAndSize_statedb (H := Sample.pkg) Sample.table STATICCALL
           Sample.callFrame
           (with_stack Sample.callFrame [0; 0; 0; 0; 2000; 6201562])
           (0, 700 + 6201562)).
  - discriminate.
  - discriminate.
  - vm_compute. reflexivity.
Defined.

(** The map of original values is written by SSTORE under EIP-1283 only:
    every other opcode, and SSTORE before the fork, leave it as it is. *)
Theorem originalSStoreMap_only_sstore `{Package} (gasTable : GasTable) (op : OpCode)
    (m m' : Machine) (r : Z * Z) :
  op <> SSTORE \/ IsEIP1283 (RuleSet_ (env m)) (BlockNumber (env m)) = false ->
  calculateGasAndSize gasTable op m = Ok r m' ->
  originalSStoreMap m' = originalSStoreMap m.
Proof.
  intros Hor Hcalc. unfold calculateGasAndSize in Hcalc.
  destruct (baseCheck op (stack m) 0) as [err | g0]; [congruence |].
  destruct op; repeat case_match; simplify_eq; try reflexivity;
    destruct Hor as [Hne | Hfork]; try contradiction;
    match goal with
    | Hn : negb _ = false |- _ => rewrite Hfork in Hn; discriminate Hn
    end.
Qed.

(** The sample SSTORE before the fork. *)
Lemma originalSStoreMap_only_sstore_witness :
  originalSStoreMap
    (with_db (Sample.readOnlyFrame false)
       (AddRefund (statedb (Sample.readOnlyFrame false)) 15000))
  = originalSStoreMap (Sample.readOnlyFrame false).
Proof.
  apply (originalSStoreMap_only_sstore (H := Sample.pkg) Sample.table SSTORE
           (Sample.readOnlyFrame false)
           (with_db (Sample.readOnlyFrame false)
              (AddRefund (statedb (Sample.readOnlyFrame false)) 15000))
           (0, 5000)).
  - right. reflexivity.
  - reflexivity.
Defined.

(** ** Stack bounds of the cost computation *)

Lemma data_at_cases (st : list Z) (k : Z) :
  0 < k ->
  (slen st < k /\ data_at st (slen st - k) = None)
  \/ (k <= slen st /\ exists v, data_at st (slen st - k) = Some v).
Proof.
  intros Hk. unfold data_at, slen.
  destruct (Z.ltb_spec (Z.of_nat (length st) - k) 0) as [Hlt | Hge].
  - left. split; [lia | reflexivity].
  - right. split; [lia |].
    destruct (lookup_lt_is_Some_2 st (Z.to_nat (Z.of_nat (length st) - k)))
      as [v Hv]; [lia |].
    exists v. exact Hv.
Qed.

Lemma data_set_some (st : list Z) (k v : Z) :
  0 < k <= slen st -> exists st', data_set st (slen st - k) v = Some st'.
Proof.
  intros Hk. unfold data_set.
  destruct (Z.leb_spec 0 (slen st - k)); [| lia].
  destruct (Z.ltb_spec (slen st - k) (slen st)); [| lia].
  simpl. eauto.
Qed.

Ltac stack_access :=
  repeat match goal with
  | |- context [data_at ?st (slen ?st - ?k)] =>
    let Hc := fresh "Hc" in
    destruct (data_at_cases st k ltac:(lia)) as [[? Hc] | [? [? Hc]]];
    rewrite Hc; cbv beta iota
  | |- context [data_set ?st (slen ?st - ?k) ?v] =>
    let Hc := fresh "Hc" in
    destruct (data_set_some st k v ltac:(lia)) as [? Hc];
    rewrite Hc; cbv beta iota
  end.

(** Past the base check, the cost computation panics exactly when the
    stack holds fewer items than its case indexes: seven for CALL and
    CALLCODE, six for DELEGATECALL and STATICCALL, and so on; the cases
    that call [require] themselves (SWAP, DUP, LOG, SSTORE) never do. *)
Theorem calculateGasAndSize_panics_iff `{Package} (gasTable : GasTable)
    (op : OpCode) (m : Machine) (g0 : Z) :
  baseCheck op (stack m) 0 = inr g0 ->
  (calculateGasAndSize gasTable op m = Panic
   <-> slen (stack m) < stackReads gasTable op).
Proof.
  intros Hbase. unfold calculateGasAndSize. rewrite Hbase.
  pose proof (slen_nonneg (stack m)) as Hlen.
  destruct op; unfold stackReads, peek, require; cbv zeta;
    try (destruct (CreateBySuicide gasTable));
    try (destruct (decide _));
    try (destruct (Z.ltb_spec (slen (stack m)) (Z.of_nat n - 1 + 2)));
    try (destruct (Z.ltb_spec (slen (stack m)) (Z.of_nat n - 1 + 1)));
    try (destruct (Z.ltb_spec (slen (stack m)) (Z.of_nat n + 2)));
    try (destruct (Z.ltb_spec (slen (stack m)) 2));
    stack_access; repeat case_match;
    (split; [intros Hp; try discriminate Hp; lia | intros Hs; try reflexivity; lia]).
Qed.

(** The sample EXTCODECOPY passes the sample base check with two items and
    indexes the fourth from the top. *)
Lemma calculateGasAndSize_panics_iff_witness :
  calculateGasAndSize (H := Sample.pkg) Sample.table EXTCODECOPY Sample.shortFrame
  = Panic
  <-> slen (stack Sample.shortFrame) < stackReads Sample.table EXTCODECOPY.
Proof.
  apply (calculateGasAndSize_panics_iff (H := Sample.pkg) Sample.table
           EXTCODECOPY Sample.shortFrame 0).
  reflexivity.
Defined.

(** ** SSTORE under EIP-1283 *)

Lemma calculateGasAndSize_sstore_eip1283 `{Package} (gasTable : GasTable) (m : Machine)
    (rest : list Z) (newValue storageLoc g0 : Z) :
  IsEIP1283 (RuleSet_ (env m)) (BlockNumber (env m)) = true ->
  stack m = rest ++ [newValue; storageLoc] ->
  baseCheck SSTORE (stack m) 0 = inr g0 ->
  let currentValue :=
    GetState (statedb m) (Address (contract m)) (BigToHash storageLoc) in
  let originalValue :=
    default currentValue (originalSStoreMap m !! BigToAddress storageLoc) in
  calculateGasAndSize gasTable SSTORE m
  = Ok (0, fst (eip1283sstoreGas originalValue currentValue newValue))
       (with_db
          (with_osm m
             (<[BigToAddress storageLoc := originalValue]> (originalSStoreMap m)))
          (AddRefund (statedb m)
             (snd (eip1283sstoreGas originalValue currentValue newValue)))).
Proof.
  intros Hfork Hst Hbase currentValue originalValue.
  unfold calculateGasAndSize. rewrite Hbase, Hfork, Hst.
  rewrite require_ok by (rewrite slen_app; pose proof (slen_nonneg rest);
                         change (slen [newValue; storageLoc]) with 2; lia).
  rewrite !data_at_from_end by (change (slen [newValue; storageLoc]) with 2; lia).
  change (data_at [newValue; storageLoc] (slen [newValue; storageLoc] - 2))
    with (Some newValue).
  change (data_at [newValue; storageLoc] (slen [newValue; storageLoc] - 1))
    with (Some storageLoc).
  cbv iota beta. simpl negb. cbv iota. fold currentValue.
  subst originalValue.
  destruct (originalSStoreMap m !! BigToAddress storageLoc) as [v |] eqn:Hentry;
    simpl default;
    destruct (eip1283sstoreGas _ currentValue newValue) as [g refundCounter];
    simpl fst; simpl snd.
  - rewrite (insert_id _ _ _ Hentry). reflexivity.
  - reflexivity.
Qed.

(** Under EIP-1283 the cost and the refund of an SSTORE are those of
    [eip1283sstoreGas] at the original value the map holds for the key's
    address, or at the current value when it holds none; the map then holds
    that original value. *)
Theorem sstore_gas_after_eip1283 `{Package} (gasTable : GasTable) (m : Machine)
    (rest : list Z) (newValue storageLoc g0 : Z) :
  IsEIP1283 (RuleSet_ (env m)) (BlockNumber (env m)) = true ->
  stack m = rest ++ [newValue; storageLoc] ->
  baseCheck SSTORE (stack m) 0 = inr g0 ->
  let currentValue :=
    GetState (statedb m) (Address (contract m)) (BigToHash storageLoc) in
  let originalValue :=
    default currentValue (originalSStoreMap m !! BigToAddress storageLoc) in
  calculateGasAndSize gasTable SSTORE m
  = Ok (0, fst (eip1283sstoreGas originalValue currentValue newValue))
       (with_db
          (with_osm m
             (<[BigToAddress storageLoc := originalValue]> (originalSStoreMap m)))
          (AddRefund (statedb m)
             (snd (eip1283sstoreGas originalValue currentValue newValue)))).
Proof. exact (calculateGasAndSize_sstore_eip1283 gasTable m rest newValue storageLoc g0). Qed.

(** The sample SSTORE under the colliding key: the entry of key 1 gives the
    original value 5. *)
Lemma sstore_gas_after_eip1283_witness :
  costAndMap
    (calculateGasAndSize (H := Sample.pkg) Sample.table SSTORE
       (Sample.sstoreFrame {[ 1 := 5 ]} 0 Sample.key2))
  = Some (fst (eip1283sstoreGas 5 7 0), {[ 1 := 5 ]}).
Proof.
  rewrite (sstore_gas_after_eip1283 (H := Sample.pkg) Sample.table
             (Sample.sstoreFrame {[ 1 := 5 ]} 0 Sample.key2) [] 0 Sample.key2 0
             eq_refl eq_refl eq_refl).
  vm_compute. reflexivity.
Defined.

Lemma eip1283sstoreGas_le_before (original current new : Z) :
  fst (eip1283sstoreGas original current new)
  <= (if (current =? 0) && negb (new =? 0) then 20000 else 5000)
  /\ fst (eip1283sstoreGas original current new)
     - snd (eip1283sstoreGas original current new)
     <= (if (current =? 0) && negb (new =? 0) then 20000 else 5000)
        - (if negb (current =? 0) && (new =? 0) then 15000 else 0).
Proof.
  unfold eip1283sstoreGas, Big0.
  destruct (Z.eqb_spec original 0), (Z.eqb_spec current 0),
    (Z.eqb_spec new 0), (Z.eqb_spec new current),
    (Z.eqb_spec original current), (Z.eqb_spec original new);
    simpl; lia.
Qed.

(** The fork never makes an SSTORE dearer: for the same stack, state and
    contract, the cost under EIP-1283 is at most the cost before it, and so
    is the cost less the refund, whatever original value the map holds. *)
Theorem eip1283_never_dearer `{Package} (gasTable : GasTable) (m1 m2 : Machine)
    (rest : list Z) (newValue storageLoc g1 : Z) :
  stack m1 = rest ++ [newValue; storageLoc] ->
  stack m2 = stack m1 ->
  statedb m2 = statedb m1 ->
  Address (contract m2) = Address (contract m1) ->
  0 <= newValue < 2 ^ 256 ->
  baseCheck SSTORE (stack m1) 0 = inr g1 ->
  IsEIP1283 (RuleSet_ (env m1)) (BlockNumber (env m1)) = false ->
  IsEIP1283 (RuleSet_ (env m2)) (BlockNumber (env m2)) = true ->
  exists before after refundBefore refundAfter,
    costAndRefund (statedb m1) (calculateGasAndSize gasTable SSTORE m1)
    = Some (before, refundBefore)
    /\ costAndRefund (statedb m2) (calculateGasAndSize gasTable SSTORE m2)
       = Some (after, refundAfter)
    /\ after <= before
    /\ after - refundAfter <= before - refundBefore.
Proof.
  intros Hst1 Hst2 Hdb Haddr Hword Hbase Hpre Hpost.
  assert (Hbase2 : baseCheck SSTORE (stack m2) 0 = inr g1) by (rewrite Hst2; exact Hbase).
  rewrite Hst1 in Hst2.
  rewrite (calculateGasAndSize_sstore_eip1283 gasTable m2 rest newValue storageLoc g1
             Hpost Hst2 Hbase2).
  unfold calculateGasAndSize. rewrite Hbase, Hpre, Hst1.
  rewrite require_ok by (rewrite slen_app; pose proof (slen_nonneg rest);
                         change (slen [newValue; storageLoc]) with 2; lia).
  rewrite !data_at_from_end by (change (slen [newValue; storageLoc]) with 2; lia).
  change (data_at [newValue; storageLoc] (slen [newValue; storageLoc] - 2))
    with (Some newValue).
  change (data_at [newValue; storageLoc] (slen [newValue; storageLoc] - 1))
    with (Some storageLoc).
  cbv iota beta. simpl negb. cbv iota.
  rewrite (BigToHash_word newValue) by exact Hword.
  rewrite Hdb, Haddr. unfold EmptyHash.
  set (currentValue :=
         GetState (statedb m1) (Address (contract m1)) (BigToHash storageLoc)).
  set (originalValue :=
         default currentValue (originalSStoreMap m2 !! BigToAddress storageLoc)).
  pose proof (eip1283sstoreGas_le_before originalValue currentValue newValue)
    as [Hcost Hnet].
  destruct (Z.eqb_spec currentValue 0), (Z.eqb_spec newValue 0);
    simpl in Hcost, Hnet |- *;
    eexists _, _, _, _; (split; [reflexivity |]); (split; [reflexivity |]);
    simpl; rewrite ?with_osm_same; lia.
Qed.

(** Clearing the slot 1, which holds 3: 5000 and a refund of 15000 before
    the fork as after it. *)
Lemma eip1283_never_dearer_witness :
  exists before after refundBefore refundAfter,
    costAndRefund (statedb (Sample.readOnlyFrame false))
      (calculateGasAndSize (H := Sample.pkg) Sample.table SSTORE
         (Sample.readOnlyFrame false))
    = Some (before, refundBefore)
    /\ costAndRefund (statedb Sample.clearFrame)
         (calculateGasAndSize (H := Sample.pkg) Sample.table SSTORE
            Sample.clearFrame)
       = Some (after, refundAfter)
    /\ after <= before
    /\ after - refundAfter <= before - refundBefore.
Proof.
  apply (eip1283_never_dearer (H := Sample.pkg) Sample.table
           (Sample.readOnlyFrame false) Sample.clearFrame [] 0 1 0).
  - reflexivity.
  - reflexivity.
  - reflexivity.
  - reflexivity.
  - lia.
  - reflexivity.
  - reflexivity.
  - reflexivity.
Defined.

(** The entry the first sample SSTORE records survives the second. *)
Lemma originalSStoreMap_permanent_witness :
  originalSStoreMap
    (with_db (Sample.sstoreFrame {[ 1 := 5 ]} 0 Sample.key2)
       (AddRefund Sample.twoSlots 15000))
  !! 1 = Some 5.
Proof.
  apply (originalSStoreMap_permanent (H := Sample.pkg) Sample.table SSTORE
           (Sample.sstoreFrame {[ 1 := 5 ]} 0 Sample.key2)
           (with_db (Sample.sstoreFrame {[ 1 := 5 ]} 0 Sample.key2)
              (AddRefund Sample.twoSlots 15000))
           (0, 200) 1 5).
  - vm_compute. reflexivity.
  - reflexivity.
Defined.

(** The first sample SSTORE records the 5 the state holds under key 1. *)
Lemma originalSStoreMap_first_sstore_witness :
  originalSStoreMap
    (with_db (with_osm (Sample.sstoreFrame ∅ 9 Sample.key1) {[ 1 := 5 ]})
       (AddRefund Sample.twoSlots 0))
  !! BigToAddress Sample.key1
  = Some
      (GetState (statedb (Sample.sstoreFrame ∅ 9 Sample.key1))
         (Address (contract (Sample.sstoreFrame ∅ 9 Sample.key1)))
         (BigToHash Sample.key1)).
Proof.
  apply (originalSStoreMap_first_sstore (H := Sample.pkg) Sample.table
           (Sample.sstoreFrame ∅ 9 Sample.key1)
           (with_db (with_osm (Sample.sstoreFrame ∅ 9 Sample.key1) {[ 1 := 5 ]})
              (AddRefund Sample.twoSlots 0))
           (0, 5000) [] 9 Sample.key1).
  - reflexivity.
  - reflexivity.
  - reflexivity.
  - vm_compute. reflexivity.
Defined.

(** ** The read-only check, the loop body and Run *)

(** The read-only check faults in one situation only: read-only mode under
    ECIP1045B, a CALL that is not flagged as state-modifying, and fewer
    than three items on the stack. Nowhere else does it index the stack. *)
Theorem checkStateMod_faults_iff `{Package} (op : OpCode) (m : Machine) :
  checkStateMod op m = None
  <-> IsECIP1045B (RuleSet_ (env m)) (BlockNumber (env m)) = true
      /\ IsReadOnly (env m) = true
      /\ IsStateModifying op = false
      /\ op = CALL
      /\ slen (stack m) < 3.
Proof.
  unfold checkStateMod.
  destruct (IsECIP1045B _ _), (IsReadOnly (env m)); simpl;
    try (split; [discriminate | intros (? & ? & _); discriminate]).
  destruct (IsStateModifying op);
    [split; [discriminate | intros (_ & _ & ? & _); discriminate] |].
  destruct (decide (op = CALL)) as [-> | Hne];
    [| split; [discriminate | intros (_ & _ & _ & ? & _); contradiction]].
  destruct (data_at_cases (stack m) 3 ltac:(lia)) as [[Hlt Hc] | [Hge [v Hc]]];
    replace (slen (stack m) - 2 - 1) with (slen (stack m) - 3) by lia;
    rewrite Hc.
  - split; [intros _; repeat split; assumption | reflexivity].
  - split; [discriminate | intros (_ & _ & _ & _ & ?); lia].
Qed.

(** A turn of the loop makes [Run] return without an error only for a STOP,
    a SUICIDE or a RETURN that the jump table marks valid and gives no
    handler; only the RETURN carries output. *)
Theorem step_returns_normally `{Package} (evm : EVM) (codehash : Z)
    (ret out : list Z) (m m' : Machine) :
  step evm codehash ret m = Return m' out None ->
  valid (jumpTable evm (GetOp (contract m) (pc m))) = true
  /\ fn (jumpTable evm (GetOp (contract m) (pc m))) = None
  /\ (GetOp (contract m) (pc m) = RETURN
      \/ (out = []
          /\ (GetOp (contract m) (pc m) = STOP
              \/ GetOp (contract m) (pc m) = SUICIDE))).
Proof.
  unfold step. set (op := GetOp (contract m) (pc m)). clearbody op.
  destruct (checkStateMod op m) as [[|] |]; try discriminate.
  destruct (calculateGasAndSize (gasTable evm) op m) as [[sz cost] m1 | e m1 |];
    try discriminate.
  destruct (UseGas (contract m1) cost) as [c [|]]; simpl; try discriminate.
  unfold dispatch, advance.
  destruct (valid (jumpTable evm op)); [| discriminate].
  destruct (fn (jumpTable evm op)) as [f |]; [discriminate |].
  intros Hstep. split; [reflexivity |]. split; [reflexivity |].
  destruct op; repeat case_match; simplify_eq; auto.
Qed.

(** The sample STOP. *)
Lemma step_returns_normally_witness :
  valid (jumpTable Sample.evm STOP) = true
  /\ fn (jumpTable Sample.evm STOP) = None
  /\ (STOP = RETURN \/ ([] = @nil Z /\ (STOP = STOP \/ STOP = SUICIDE))).
Proof.
  apply (step_returns_normally (H := Sample.pkg) Sample.evm 0 [] []
           (Sample.frame (Sample.environment true true false (Sample.state []))
              1000 [STOP] 50 [])
           (Sample.frame (Sample.environment true true false (Sample.state []))
              1000 [STOP] 50 [])).
  reflexivity.
Defined.

Lemma step_error_output `{Package} (evm : EVM) (codehash : Z)
    (ret out : list Z) (m m' : Machine) (err : Error) :
  step evm codehash ret m = Return m' out (Some err) ->
  out = [] \/ err = ErrExecutionReverted.
Proof.
  unfold step. set (op := GetOp (contract m) (pc m)). clearbody op.
  destruct (checkStateMod op m) as [[|] |]; try discriminate.
  { intros [= _ <- _]. left. reflexivity. }
  destruct (calculateGasAndSize (gasTable evm) op m) as [[sz cost] m1 | e m1 |];
    try discriminate.
  2: { intros [= _ <- _]. left. reflexivity. }
  destruct (UseGas (contract m1) cost) as [c [|]]; simpl.
  2: { intros [= _ <- _]. left. reflexivity. }
  unfold dispatch, advance.
  destruct (valid (jumpTable evm op)).
  2: { intros [= _ <- _]. left. reflexivity. }
  destruct (fn (jumpTable evm op)) as [f |]; [discriminate |].
  intros Hstep.
  destruct op; repeat case_match; simplify_eq; auto.
Qed.

(** When the loop ends with an error, the output is nil unless the error
    is the one of REVERT: no other error carries output. *)
Theorem loop_error_output `{Package} (fuel : nat) (evm : EVM) (codehash : Z)
    (out : list Z) (m m' : Machine) (err : Error) :
  loop fuel evm codehash [] m = Some (Return m' out (Some err)) ->
  out = [] \/ err = ErrExecutionReverted.
Proof.
  revert m. induction fuel as [| fuel IH]; intros m Hloop; [discriminate |].
  simpl in Hloop.
  destruct (step evm codehash [] m) as [m1 | m1 out1 err1 |] eqn:Hstep.
  - apply (IH m1 Hloop).
  - injection Hloop as -> -> ->. apply (step_error_output _ _ _ _ _ _ _ Hstep).
  - discriminate.
Qed.

(** The sample revert: PUSH1 0, PUSH1 0, REVERT. *)
Lemma loop_error_output_witness :
  @nil Z = [] \/ ErrExecutionReverted = ErrExecutionReverted.
Proof.
  apply (loop_error_output (H := Sample.pkg) 5 Sample.evm 0 []
           (Sample.frame (Sample.environment true true false (Sample.state []))
              1000 (Sample.push 0 ++ Sample.push 0 ++ [REVERT]) 100 [])
           (with_mem
              (with_pc
                 (Sample.frame
                    (Sample.environment true true false (Sample.state []))
                    1000 (Sample.push 0 ++ Sample.push 0 ++ [REVERT]) 94 [])
                 4)
              [])
           ErrExecutionReverted).
  vm_compute. reflexivity.
Defined.

(** A contract whose code address is a precompile of the active fork never
    has its own code run: whatever the code, the jump table and the fuel,
    [Run] returns what [RunPrecompiled] gives, at the depth it was entered
    with and with the return data cleared; the input is not stored in the
    contract. *)
Theorem Run_precompiled `{Package} (fuel : nat) (evm : EVM) (e : Environment)
    (c : Contract) (input : list Z) (addr : Z) (p : PrecompiledAccount) :
  CodeAddr c = Some addr ->
  (if IsECIP1045B (RuleSet_ e) (BlockNumber e)
   then PrecompiledContractsECIP1045B else PrecompiledHomestead) addr = Some p ->
  Run fuel evm e c input
  = Some
      (Returned
         (SetDepth (SetReturnData e []) (wrap_int (wrap_int (Depth e + 1) - 1)))
         (fst (fst (RunPrecompiled p input c)))
         (snd (fst (RunPrecompiled p input c)))
         (snd (RunPrecompiled p input c)))
  /\ Input (fst (fst (RunPrecompiled p input c))) = Input c.
Proof.
  intros Haddr Hp. split.
  - unfold Run. rewrite Haddr. cbv zeta.
    cbn [RuleSet_ BlockNumber SetReturnData SetDepth].
    rewrite Hp. destruct (RunPrecompiled p input c) as [[c1 out] err].
    reflexivity.
  - unfold RunPrecompiled, UseGas.
    destruct (Gas c <? PrecompiledGas p input); simpl;
      [reflexivity | destruct (PrecompiledCall p input); reflexivity].
Qed.

(** The sample contract at address 4 has the invalid opcode 12 as code and
    no fuel is given: the identity precompile answers. *)
Lemma Run_precompiled_witness :
  Run (H := Sample.pkg) 0 Sample.evm
    (Sample.environment true true false (Sample.state []))
    Sample.precompiledWithCode [8; 9]
  = Some
      (Returned
         (SetDepth
            (SetReturnData (Sample.environment true true false (Sample.state []))
               [])
            (wrap_int (wrap_int (3 + 1) - 1)))
         (fst (fst (RunPrecompiled Sample.identity [8; 9]
                      Sample.precompiledWithCode)))
         (snd (fst (RunPrecompiled Sample.identity [8; 9]
                      Sample.precompiledWithCode)))
         (snd (RunPrecompiled Sample.identity [8; 9] Sample.precompiledWithCode)))
  /\ Input (fst (fst (RunPrecompiled Sample.identity [8; 9]
                        Sample.precompiledWithCode)))
     = Input Sample.precompiledWithCode.
Proof.
  apply (Run_precompiled (H := Sample.pkg) 0 Sample.evm
           (Sample.environment true true false (Sample.state []))
           Sample.precompiledWithCode [8; 9] 4 Sample.identity).
  - reflexivity.
  - reflexivity.
Defined.

(** A contract without code that is no precompile costs nothing to run:
    [Run] returns nil and no error, whatever the fuel, and hands the
    contract back as it was given, gas and input included. *)
Theorem Run_empty_code `{Package} (fuel : nat) (evm : EVM) (e : Environment)
    (c : Contract) (input : list Z) :
  match CodeAddr c with
  | Some addr =>
    (if IsECIP1045B (RuleSet_ e) (BlockNumber e)
     then PrecompiledContractsECIP1045B else PrecompiledHomestead) addr = None
  | None => True
  end ->
  Code c = [] ->
  Run fuel evm e c input
  = Some
      (Returned
         (SetDepth (SetReturnData e []) (wrap_int (wrap_int (Depth e + 1) - 1)))
         c [] None).
Proof.
  intros Hp Hcode. unfold Run. cbv zeta.
  cbn [RuleSet_ BlockNumber SetReturnData SetDepth].
  destruct (CodeAddr c) as [addr |]; [rewrite Hp |]; rewrite Hcode; reflexivity.
Qed.

Lemma Run_empty_code_witness :
  Run (H := Sample.pkg) 0 Sample.evm
    (Sample.environment true true false (Sample.state []))
    (Sample.code 1000 [] 100) [8; 9]
  = Some
      (Returned
         (SetDepth
            (SetReturnData (Sample.environment true true false (Sample.state []))
               [])
            (wrap_int (wrap_int (3 + 1) - 1)))
         (Sample.code 1000 [] 100) [] None).
Proof.
  apply (Run_empty_code (H := Sample.pkg) 0 Sample.evm
           (Sample.environment true true false (Sample.state []))
           (Sample.code 1000 [] 100) [8; 9]).
  - exact I.
  - reflexivity.
Defined.

(** An opcode the jump table marks invalid is rejected only after its cost
    was computed and charged and the memory resized: the error comes with
    the gas reduced by the cost, and with whatever the cost computation
    did to the refund counter, the map of original values and the stack. *)
Theorem invalid_opcode_after_charge `{Package} (evm : EVM) (codehash : Z)
    (ret : list Z) (m m1 : Machine) (newMemSize cost : Z) :
  checkStateMod (GetOp (contract m) (pc m)) m = Some false ->
  calculateGasAndSize (gasTable evm) (GetOp (contract m) (pc m)) m
  = Ok (newMemSize, cost) m1 ->
  cost <= Gas (contract m1) ->
  valid (jumpTable evm (GetOp (contract m) (pc m))) = false ->
  step evm codehash ret m
  = Return
      (with_mem
         (with_contract m1 (SetGas (contract m1) (Gas (contract m1) - cost)))
         (Resize (mem m1) (Uint64 newMemSize)))
      [] (Some (ErrInvalidOpcode (GetOp (contract m) (pc m)))).
Proof.
  intros Hcheck Hcalc Hgas Hvalid. unfold step. rewrite Hcheck, Hcalc.
  unfold UseGas. destruct (Z.ltb_spec (Gas (contract m1)) cost); [lia |].
  simpl. unfold dispatch. rewrite Hvalid. reflexivity.
Qed.

(** The sample opcode 12: nothing to pay, and the error. *)
Lemma invalid_opcode_after_charge_witness :
  step (H := Sample.pkg) Sample.evm 0 [] Sample.invalidFrame
  = Return
      (with_mem
         (with_contract Sample.invalidFrame
            (SetGas (contract Sample.invalidFrame)
               (Gas (contract Sample.invalidFrame) - 0)))
         (@Resize Sample.pkg (mem Sample.invalidFrame) (Uint64 0)))
      [] (Some (ErrInvalidOpcode (OTHER 12))).
Proof.
  apply (invalid_opcode_after_charge (H := Sample.pkg) Sample.evm 0 []
           Sample.invalidFrame Sample.invalidFrame 0 0).
  - reflexivity.
  - reflexivity.
  - vm_compute. discriminate.
  - reflexivity.
Defined.

(** ** More on single opcodes *)

(** On a slot the frame has not written yet, EIP-1283 changes the price of
    nothing but the no-op: when the new value differs from the current one,
    cost and refund are what they were before the fork. *)
Theorem eip1283_first_write_same_price `{Package} (gasTable : GasTable)
    (m1 m2 : Machine) (rest : list Z) (newValue storageLoc g1 : Z) :
  stack m1 = rest ++ [newValue; storageLoc] ->
  stack m2 = stack m1 ->
  statedb m2 = statedb m1 ->
  Address (contract m2) = Address (contract m1) ->
  0 <= newValue < 2 ^ 256 ->
  baseCheck SSTORE (stack m1) 0 = inr g1 ->
  IsEIP1283 (RuleSet_ (env m1)) (BlockNumber (env m1)) = false ->
  IsEIP1283 (RuleSet_ (env m2)) (BlockNumber (env m2)) = true ->
  originalSStoreMap m2 !! BigToAddress storageLoc = None ->
  newValue
  <> GetState (statedb m1) (Address (contract m1)) (BigToHash storageLoc) ->
  costAndRefund (statedb m2) (calculateGasAndSize gasTable SSTORE m2)
  = costAndRefund (statedb m1) (calculateGasAndSize gasTable SSTORE m1)
  /\ is_Some (costAndRefund (statedb m1) (calculateGasAndSize gasTable SSTORE m1)).
Proof.
  intros Hst1 Hst2 Hdb Haddr Hword Hbase Hpre Hpost Hfresh Hchange.
  assert (Hbase2 : baseCheck SSTORE (stack m2) 0 = inr g1) by (rewrite Hst2; exact Hbase).
  rewrite Hst1 in Hst2.
  rewrite (calculateGasAndSize_sstore_eip1283 gasTable m2 rest newValue storageLoc g1
             Hpost Hst2 Hbase2).
  rewrite Hfresh. simpl default.
  unfold calculateGasAndSize. rewrite Hbase, Hpre, Hst1.
  rewrite require_ok by (rewrite slen_app; pose proof (slen_nonneg rest);
                         change (slen [newValue; storageLoc]) with 2; lia).
  rewrite !data_at_from_end by (change (slen [newValue; storageLoc]) with 2; lia).
  change (data_at [newValue; storageLoc] (slen [newValue; storageLoc] - 2))
    with (Some newValue).
  change (data_at [newValue; storageLoc] (slen [newValue; storageLoc] - 1))
    with (Some storageLoc).
  cbv iota beta. simpl negb. cbv iota.
  rewrite (BigToHash_word newValue) by exact Hword.
  rewrite Hdb, Haddr. unfold EmptyHash.
  set (currentValue :=
         GetState (statedb m1) (Address (contract m1)) (BigToHash storageLoc))
    in *.
  unfold eip1283sstoreGas, Big0. rewrite Z.eqb_refl.
  destruct (Z.eqb_spec newValue currentValue); [contradiction |].
  destruct (Z.eqb_spec currentValue 0), (Z.eqb_spec newValue 0);
    simpl; rewrite ?with_osm_same; try lia;
    (split; [f_equal; f_equal; lia | eexists; reflexivity]).
Qed.

(** Clearing the slot 1, which holds 3, as the first write of the frame. *)
Lemma eip1283_first_write_same_price_witness :
  costAndRefund (statedb Sample.clearFrame)
    (calculateGasAndSize (H := Sample.pkg) Sample.table SSTORE Sample.clearFrame)
  = costAndRefund (statedb (Sample.readOnlyFrame false))
      (calculateGasAndSize (H := Sample.pkg) Sample.table SSTORE
         (Sample.readOnlyFrame false))
  /\ is_Some
       (costAndRefund (statedb (Sample.readOnlyFrame false))
          (calculateGasAndSize (H := Sample.pkg) Sample.table SSTORE
             (Sample.readOnlyFrame false))).
Proof.
  apply (eip1283_first_write_same_price (H := Sample.pkg) Sample.table
           (Sample.readOnlyFrame false) Sample.clearFrame [] 0 1 0).
  - reflexivity.
  - reflexivity.
  - reflexivity.
  - reflexivity.
  - lia.
  - reflexivity.
  - reflexivity.
  - reflexivity.
  - reflexivity.
  - vm_compute. discriminate.
Defined.

Lemma BytesLen_bounds (x k : Z) :
  0 < k -> 2 ^ (8 * (k - 1)) <= x < 2 ^ (8 * k) -> BytesLen x = k.
Proof.
  intros Hk [Hlo Hhi].
  assert (Hpos : 0 < x) by (pose proof (Z.pow_pos_nonneg 2 (8 * (k - 1))); lia).
  unfold BytesLen, BitLen. destruct (Z.eqb_spec x 0); [lia |].
  rewrite Z.abs_eq by lia.
  assert (8 * (k - 1) <= Z.log2 x) by (apply Z.log2_le_pow2; lia).
  assert (Z.log2 x < 8 * k) by (apply Z.log2_lt_pow2; lia).
  symmetry. apply Z.div_unique with (r := Z.log2 x + 1 + 7 - 8 * k); lia.
Qed.

(** EXP is charged by the byte length of its exponent, the second item
    from the top: nothing beyond the base for the exponent zero, and [k]
    times the fork's price per byte for an exponent of [k] bytes. *)
Theorem exp_gas_by_exponent_bytes `{Package} (gasTable : GasTable) (m : Machine)
    (rest : list Z) (base exponent g0 k : Z) :
  stack m = rest ++ [exponent; base] ->
  baseCheck EXP (stack m) 0 = inr g0 ->
  exponent = 0 /\ k = 0
  \/ 0 < k /\ 2 ^ (8 * (k - 1)) <= exponent < 2 ^ (8 * k) ->
  calculateGasAndSize gasTable EXP m = Ok (0, g0 + k * ExpByte gasTable) m.
Proof.
  intros Hst Hbase Hk. unfold calculateGasAndSize. rewrite Hbase, Hst.
  rewrite data_at_from_end by (change (slen [exponent; base]) with 2; lia).
  change (data_at [exponent; base] (slen [exponent; base] - 2))
    with (Some exponent).
  cbv iota beta.
  destruct Hk as [[-> ->] | [Hpos Hrange]].
  - reflexivity.
  - rewrite (BytesLen_bounds exponent k Hpos Hrange). reflexivity.
Qed.

(** The sample EXP with the two-byte exponent 256. *)
Lemma exp_gas_by_exponent_bytes_witness :
  calculateGasAndSize (H := Sample.pkg) Sample.table EXP
    (Sample.frame (Sample.environment true true false (Sample.state [])) 1000
       [EXP] 50000 [256; 3])
  = Ok (0, 0 + 2 * ExpByte Sample.table)
      (Sample.frame (Sample.environment true true false (Sample.state [])) 1000
         [EXP] 50000 [256; 3]).
Proof.
  apply (exp_gas_by_exponent_bytes (H := Sample.pkg) Sample.table
           (Sample.frame (Sample.environment true true false (Sample.state []))
              1000 [EXP] 50000 [256; 3])
           [] 3 256 0 2).
  - reflexivity.
  - reflexivity.
  - right. split; [lia |]. simpl. lia.
Defined.
